(** * Shallow embedding of the rag-search model-client adapter and workflow

    Sources embedded here:
    - [src/src/native_gemini_client.py]: [NativeGeminiClient] (transport step,
      tenacity retry wrapper, message and tool conversion, response parsing,
      usage accessors, streaming variant);
    - [src/src/ragflow_client.py] and [src/src/tools.py]: the internal
      evidence search used as an agent capability;
    - [src/src/main.py]: the two-phase workflow seeding.

    Python exceptions are an explicit error type; a call that may raise
    returns a [result]. JSON values (request payloads, response bodies,
    tool parameter schemas) are a small inductive type whose objects are
    association lists in insertion order, as Python dicts are. *)

From Stdlib Require Import String Ascii List ZArith Lia Bool.
Import ListNotations.
Local Open Scope string_scope.
Local Open Scope list_scope.
Local Open Scope Z_scope.

(** ** JSON values and Python exceptions *)

#[local] Set Warnings "-register-all".

Inductive json : Type :=
| JNull
| JBool (b : bool)
| JNum (z : Z)
| JStr (s : string)
| JArr (l : list json)
| JObj (kvs : list (string * json)).

(** Subscript keys: [d["k"]] or [l[0]]. *)
Inductive pykey : Type :=
| KStr (s : string)
| KInt (n : nat).

(** The exceptions raised along the paths we embed. [RetryError] is
    tenacity's error wrapping the last failed attempt. *)
Inductive py_exc : Type :=
| RateLimitError (msg : string)
| HTTPError (status : Z)
| ConnectionError
| JSONDecodeError
| RetryError (last : py_exc)
| KeyError (k : pykey)
| IndexError (msg : string)
| TypeError
| AttributeError
| ValidationError
| ValueError (msg : string).

Inductive result (A : Type) : Type :=
| Ok (a : A)
| Err (e : py_exc).
Arguments Ok {A} a.
Arguments Err {A} e.

Definition bind {A B} (m : result A) (k : A -> result B) : result B :=
  match m with
  | Ok a => k a
  | Err e => Err e
  end.

Notation "x <- m ;; k" := (bind m (fun x => k))
  (at level 61, m at next level, right associativity).

(** Error kinds of the spec's taxonomy, as seen by a caller of [create]:
    a request-layer failure (or the retry layer giving up) is a
    [BackendError]; the [ValueError] raised by the response parser is the
    [ProtocolError]; a bare rate-limit signal never leaves the retry layer. *)
Inductive error_kind : Type :=
| BackendError
| ProtocolError
| RateLimitSignal
| OtherError.

Definition kind_of (e : py_exc) : error_kind :=
  match e with
  | RateLimitError _ => RateLimitSignal
  | HTTPError _ | ConnectionError | JSONDecodeError | RetryError _ => BackendError
  | ValueError _ => ProtocolError
  | _ => OtherError
  end.

(** ** Transport step: [NativeGeminiClient._make_api_request] *)

(** What [requests.post] yields: a connection-level failure, or a response
    with its status code, its [Retry-After] header and its body ([None] when
    the body is not JSON). *)
Inductive http_outcome : Type :=
| ConnFailure
| HttpResponse (status : Z) (retry_after : option string) (body : option json).

Definition header_get (h : option string) (default : string) : string :=
  match h with Some v => v | None => default end.

(** [response.raise_for_status()]: raises for 4xx and 5xx statuses. *)
Definition raise_for_status (status : Z) : result unit :=
  if (400 <=? status) && (status <? 600) then Err (HTTPError status) else Ok tt.

(** [response.json()]; since requests 2.27 its decode error is a
    [RequestException]. *)
Definition response_json (body : option json) : result json :=
  match body with
  | Some j => Ok j
  | None => Err JSONDecodeError
  end.

Definition _make_api_request (o : http_outcome) : result json :=
  match o with
  | ConnFailure => Err ConnectionError
  | HttpResponse status retry_after body =>
      if status =? 429 then
        let ra := header_get retry_after "60" in
        Err (RateLimitError ("Rate limit exceeded. Retry-After: " ++ ra)%string)
      else
        _ <- raise_for_status status ;;
        response_json body
  end.

(** ** Retry wrapper: [@retry(...) _make_api_request_with_retry]

    tenacity with [retry_if_exception_type(RateLimitError)],
    [stop_after_attempt(5)] and
    [wait_exponential(multiplier=2, min=2, max=60)]. After a failed attempt
    tenacity first asks the retry predicate (a non-matching exception is
    re-raised at once), then the stop condition (raising [RetryError]), then
    computes the wait and sleeps. *)

Definition is_rate_limit (e : py_exc) : bool :=
  match e with RateLimitError _ => true | _ => false end.

Definition stop_after_attempt (max_attempt attempt_number : nat) : bool :=
  Nat.leb max_attempt attempt_number.

(** [wait_exponential.__call__]:
    [max(max(0, min), min(multiplier * exp_base ** (attempt - 1), max))]. *)
Definition wait_exponential (multiplier wmin wmax : Z) (attempt_number : nat) : Z :=
  let exp := 2 ^ (Z.of_nat attempt_number - 1) in
  Z.max (Z.max 0 wmin) (Z.min (multiplier * exp) wmax).

Definition retry_wait (attempt_number : nat) : Z := wait_exponential 2 2 60 attempt_number.

(** Outcome of a retried call: the returned value or raised exception, the
    sleeps taken in order, and the number of attempts made. *)
Record retry_trace : Type := mk_trace {
  outcome : result json;
  sleeps : list Z;
  attempts : nat
}.

(** [call n] is the transport step at attempt number [n]; [fuel] only bounds
    the recursion (the stop condition fires first when [fuel >= 5]). *)
Fixpoint retry_loop (call : nat -> result json) (fuel attempt_number : nat) : retry_trace :=
  match call attempt_number with
  | Ok j => mk_trace (Ok j) [] attempt_number
  | Err e =>
      if negb (is_rate_limit e) then mk_trace (Err e) [] attempt_number
      else if stop_after_attempt 5 attempt_number then
        mk_trace (Err (RetryError e)) [] attempt_number
      else
        match fuel with
        | O => mk_trace (Err (RetryError e)) [] attempt_number
        | S fuel' =>
            let t := retry_loop call fuel' (S attempt_number) in
            mk_trace (outcome t) (retry_wait attempt_number :: sleeps t) (attempts t)
        end
  end.

(** The backend answers the [n]-th attempt with [backend n]. *)
Definition _make_api_request_with_retry (backend : nat -> http_outcome) : retry_trace :=
  retry_loop (fun n => _make_api_request (backend n)) 5 1.

(** ** Python helpers on strings and dicts *)

(** [needle in hay] for strings. *)
Fixpoint str_contains (needle hay : string) : bool :=
  String.prefix needle hay ||
  match hay with
  | EmptyString => false
  | String _ rest => str_contains needle rest
  end.

(** [sep.join(parts)] with [sep = ""]. *)
Definition join_empty (parts : list string) : string :=
  fold_right String.append EmptyString parts.

(** [d[k]] on a dict with string keys: the first binding of [k]. *)
Fixpoint lookup (k : string) (kvs : list (string * json)) : option json :=
  match kvs with
  | [] => None
  | (k', v) :: rest => if String.eqb k k' then Some v else lookup k rest
  end.

(** ** Messages and their conversion ([create], lines 75-94) *)

(** [FunctionCall]; [arguments] holds the argument value the code passes
    through [json.dumps]. *)
Record function_call : Type := mk_function_call {
  fc_id : string;
  fc_name : string;
  fc_arguments : json
}.

Record function_execution_result : Type := mk_fer {
  fer_content : string;
  fer_call_id : string
}.

Inductive user_part : Type :=
| UPText (s : string)
| UPImage.

Inductive user_content : Type :=
| UCStr (s : string)
| UCParts (parts : list user_part).

Inductive assistant_content : Type :=
| ACStr (s : string)
| ACCalls (calls : list function_call).

(** autogen's [LLMMessage]: the four message roles. *)
Inductive llm_message : Type :=
| SystemMessage (content : string)
| UserMessage (content : user_content)
| AssistantMessage (content : assistant_content)
| FunctionExecutionResultMessage (content : list function_execution_result).

Definition text_part (s : string) : json := JObj [("text", JStr s)].

Definition gemini_content (role text : string) : json :=
  JObj [("role", JStr role); ("parts", JArr [text_part text])].

(** [[p for p in content if isinstance(p, str)]] *)
Fixpoint user_text_parts (ps : list user_part) : list string :=
  match ps with
  | [] => []
  | UPText s :: rest => s :: user_text_parts rest
  | UPImage :: rest => user_text_parts rest
  end.

(** One iteration of [for msg in messages]: the state is
    [(gemini_contents, system_instruction)]. *)
Definition convert_step (st : list json * option json) (msg : llm_message)
  : list json * option json :=
  let '(gemini_contents, system_instruction) := st in
  match msg with
  | SystemMessage c => (gemini_contents, Some (JObj [("parts", JArr [text_part c])]))
  | UserMessage (UCStr c) => (gemini_contents ++ [gemini_content "user" c], system_instruction)
  | UserMessage (UCParts ps) =>
      (gemini_contents ++ [gemini_content "user" (join_empty (user_text_parts ps))],
       system_instruction)
  | AssistantMessage (ACStr c) => (gemini_contents ++ [gemini_content "model" c], system_instruction)
  | AssistantMessage (ACCalls _) => st
  | FunctionExecutionResultMessage _ => st
  end.

Definition convert_messages (messages : list llm_message) : list json * option json :=
  fold_left convert_step messages ([], None).

(** ** Tool declarations ([create], lines 96-127) *)

Definition is_banned_key (k : string) : bool :=
  String.eqb k "title" || String.eqb k "additionalProperties" || String.eqb k "strict".

(** [clean_schema]: a dict is rebuilt without the banned keys, its values
    cleaned; anything else is returned unchanged. *)
Fixpoint clean_schema (schema : json) : json :=
  match schema with
  | JObj kvs =>
      JObj ((fix go (l : list (string * json)) : list (string * json) :=
               match l with
               | [] => []
               | (k, v) :: rest =>
                   if is_banned_key k then go rest else (k, clean_schema v) :: go rest
               end) kvs)
  | _ => schema
  end.

(** Python truthiness of a JSON value. *)
Definition truthy (j : json) : bool :=
  match j with
  | JNull => false
  | JBool b => b
  | JNum z => negb (z =? 0)
  | JStr s => negb (String.eqb s "")
  | JArr l => match l with [] => false | _ => true end
  | JObj kvs => match kvs with [] => false | _ => true end
  end.

(** A tool as [create] sees it, after the attribute-or-key lookups of
    lines 112-114 ([None] where both give nothing). *)
Record tool : Type := mk_tool {
  tool_name : option string;
  tool_description : option string;
  tool_parameters : option json
}.

Definition opt_str_json (o : option string) : json :=
  match o with Some s => JStr s | None => JNull end.

Definition tool_declaration (t : tool) : option json :=
  let parameters :=
    match tool_parameters t with
    | Some p => if truthy p then Some (clean_schema p) else Some p
    | None => None
    end in
  match tool_name t with
  | Some name =>
      if String.eqb name "" then None
      else Some (JObj [("name", JStr name);
                       ("description", opt_str_json (tool_description t));
                       ("parameters", match parameters with Some p => p | None => JNull end)])
  | None => None
  end.

Fixpoint function_declarations (ts : list tool) : list json :=
  match ts with
  | [] => []
  | t :: rest =>
      match tool_declaration t with
      | Some d => d :: function_declarations rest
      | None => function_declarations rest
      end
  end.

Definition gemini_tools (tools : option (list tool)) : list json :=
  match tools with
  | Some ((_ :: _) as ts) =>
      match function_declarations ts with
      | [] => []
      | decls => [JObj [("function_declarations", JArr decls)]]
      end
  | _ => []
  end.

(** The request payload of lines 129-140, keys in insertion order. *)
Definition build_payload (messages : list llm_message) (tools : option (list tool)) : json :=
  let '(gemini_contents, system_instruction) := convert_messages messages in
  let gt := gemini_tools tools in
  JObj ([("contents", JArr gemini_contents)]
        ++ match gt with [] => [] | _ => [("tools", JArr gt)] end
        ++ match system_instruction with
           | Some si => if truthy si then [("system_instruction", si)] else []
           | None => []
           end).

(** ** Response parsing ([create], lines 145-213) *)

(** [v[k]] on a decoded JSON value. *)
Definition py_getitem (v : json) (k : pykey) : result json :=
  match v, k with
  | JObj kvs, KStr s =>
      match lookup s kvs with Some x => Ok x | None => Err (KeyError k) end
  | JObj _, KInt _ => Err (KeyError k)
  | JArr l, KInt n =>
      match nth_error l n with
      | Some x => Ok x
      | None => Err (IndexError "list index out of range")
      end
  | JStr s, KInt n =>
      match String.get n s with
      | Some c => Ok (JStr (String c EmptyString))
      | None => Err (IndexError "string index out of range")
      end
  | _, _ => Err TypeError
  end.

Fixpoint string_chars (s : string) : list json :=
  match s with
  | EmptyString => []
  | String c rest => JStr (String c EmptyString) :: string_chars rest
  end.

(** [needle in v]. *)
Definition py_contains (needle : string) (v : json) : result bool :=
  match v with
  | JObj kvs => Ok (match lookup needle kvs with Some _ => true | None => false end)
  | JArr l => Ok (existsb (fun x => match x with JStr s => String.eqb s needle | _ => false end) l)
  | JStr s => Ok (str_contains needle s)
  | _ => Err TypeError
  end.

(** [for x in v]. *)
Definition py_iter (v : json) : result (list json) :=
  match v with
  | JArr l => Ok l
  | JObj kvs => Ok (map (fun kv => JStr (fst kv)) kvs)
  | JStr s => Ok (string_chars s)
  | _ => Err TypeError
  end.

(** [v.get(k, default)]: only dicts have [get]. *)
Definition py_get (v : json) (k : string) (default : json) : result json :=
  match v with
  | JObj kvs => Ok (match lookup k kvs with Some x => x | None => default end)
  | _ => Err AttributeError
  end.

(** pydantic's check of a [str] field ([CreateResult.content], the [str]
    fields of [EvidenceItem]): no coercion from other types. *)
Definition validate_str (v : json) : result string :=
  match v with JStr s => Ok s | _ => Err ValidationError end.

Definition finish_reason_map : list (string * string) :=
  [("STOP", "stop"); ("MAX_TOKENS", "length"); ("SAFETY", "content_filter");
   ("RECITATION", "content_filter"); ("OTHER", "stop")].

Fixpoint lookup_str (k : string) (m : list (string * string)) : option string :=
  match m with
  | [] => None
  | (k', v) :: rest => if String.eqb k k' then Some v else lookup_str k rest
  end.

(** [finish_reason_map.get(raw, "stop")]: lists and dicts are unhashable. *)
Definition map_finish_reason (raw : json) : result string :=
  match raw with
  | JArr _ | JObj _ => Err TypeError
  | JStr s => Ok (match lookup_str s finish_reason_map with Some r => r | None => "stop" end)
  | _ => Ok "stop"
  end.

(** [RequestUsage] is a plain dataclass: its fields hold whatever values
    [usage.get] returned, unchecked. *)
Record request_usage : Type := mk_usage {
  prompt_tokens : json;
  completion_tokens : json
}.

(** The fields of autogen's [CreateResult] that [create] fills; the
    [tool_calls] keyword is not a field of that pydantic model and is
    ignored, so the tool calls collected by [create] never reach it. *)
Record create_result : Type := mk_create_result {
  cr_content : string;
  cr_usage : request_usage;
  cr_finish_reason : string;
  cr_cached : bool
}.

(** [FunctionCall(id=..., name=fname, arguments=json.dumps(fargs))] as the
    loop builds it: a plain dataclass, so [name] is whatever [fc["name"]]
    holds. *)
Record raw_tool_call : Type := mk_raw_tool_call {
  tc_id : string;
  tc_name : json;
  tc_arguments : json
}.

(** The loop of lines 163-170; [fresh i] is the [uuid4] drawn for the
    [i]-th tool call of the response. *)
Fixpoint collect_tool_calls (fresh : nat -> string) (acc : list raw_tool_call)
    (parts : list json) : result (list raw_tool_call) :=
  match parts with
  | [] => Ok acc
  | part :: rest =>
      has_fc <- py_contains "functionCall" part ;;
      if has_fc then
        fc <- py_getitem part (KStr "functionCall") ;;
        fname <- py_getitem fc (KStr "name") ;;
        fargs <- py_getitem fc (KStr "args") ;;
        collect_tool_calls fresh
          (acc ++ [mk_raw_tool_call (fresh (length acc)) fname fargs]) rest
      else collect_tool_calls fresh acc rest
  end.

(** The body of the inner [try] (lines 152-205). *)
Definition parse_response (fresh : nat -> string) (data : json) : result create_result :=
  cands <- py_getitem data (KStr "candidates") ;;
  candidate <- py_getitem cands (KInt 0) ;;
  content <- py_getitem candidate (KStr "content") ;;
  parts <- py_getitem content (KStr "parts") ;;
  content_part <- py_getitem parts (KInt 0) ;;
  has_text <- py_contains "text" content_part ;;
  content_text <- (if has_text then py_getitem content_part (KStr "text") else Ok (JStr "")) ;;
  parts' <- py_getitem candidate (KStr "content") ;;
  parts'' <- py_getitem parts' (KStr "parts") ;;
  part_list <- py_iter parts'' ;;
  tool_calls <- collect_tool_calls fresh [] part_list ;;
  raw_finish_reason <- py_get candidate "finishReason" (JStr "STOP") ;;
  finish_reason <- map_finish_reason raw_finish_reason ;;
  usage <- py_get data "usageMetadata" (JObj []) ;;
  pt <- py_get usage "promptTokenCount" (JNum 0) ;;
  ct <- py_get usage "candidatesTokenCount" (JNum 0) ;;
  content_str <- validate_str content_text ;;
  Ok (mk_create_result content_str (mk_usage pt ct) finish_reason false).

(** Decimal rendering of a [nat], for [str(KeyError(0))]. *)
Fixpoint nat_to_string_aux (fuel n : nat) (acc : string) : string :=
  match fuel with
  | O => acc
  | S fuel' =>
      let d := Nat.modulo n 10 in
      let acc' := String (Ascii.ascii_of_nat (48 + d)) acc in
      if Nat.ltb n 10 then acc' else nat_to_string_aux fuel' (Nat.div n 10) acc'
  end.

Definition nat_to_string (n : nat) : string := nat_to_string_aux (S n) n EmptyString.

(** [str(e)] for the exceptions the inner [except] catches. *)
Definition exc_str (e : py_exc) : string :=
  match e with
  | KeyError (KStr s) => "'" ++ s ++ "'"
  | KeyError (KInt n) => nat_to_string n
  | IndexError m => m
  | _ => ""
  end.

(** [except (KeyError, IndexError) as e: raise ValueError(...)]; the raw
    payload goes to [logger.error] only. *)
Definition parse_or_value_error (fresh : nat -> string) (data : json) : result create_result :=
  match parse_response fresh data with
  | Err ((KeyError _ | IndexError _) as e) =>
      Err (ValueError ("Invalid response format from Gemini: " ++ exc_str e))
  | r => r
  end.

(** ** The client object *)

Record client : Type := mk_client {
  api_key : string;
  model : string;
  base_url : string;
  _total_usage : request_usage
}.

(** [NativeGeminiClient.__init__]. *)
Definition new_client (key : string) (model_name : string) : client :=
  mk_client key model_name "https://generativelanguage.googleapis.com/v1beta/models"
    (mk_usage (JNum 0) (JNum 0)).

Definition total_usage (c : client) : request_usage := _total_usage c.
Definition actual_usage (c : client) : request_usage := _total_usage c.

(** The remote side: [backend url payload n] answers attempt [n] of a request. *)
Definition backend_t : Type := string -> json -> nat -> http_outcome.

Definition request_url (c : client) : string :=
  base_url c ++ "/" ++ model c ++ ":generateContent?key=" ++ api_key c.

(** [NativeGeminiClient.create]: returns the client state after the call
    (the object is never mutated) and the result or raised exception. The
    outer [except RequestException: raise] re-raises unchanged; what the
    call logs is [create_error_log] below. *)
Definition create (c : client) (messages : list llm_message) (tools : option (list tool))
    (backend : backend_t) (fresh : nat -> string) : client * result create_result :=
  let url := request_url c in
  let payload := build_payload messages tools in
  let t := _make_api_request_with_retry (backend url payload) in
  (c, data <- outcome t ;; parse_or_value_error fresh data).

(** Exceptions that are [requests.exceptions.RequestException]s. *)
Definition is_request_exception (e : py_exc) : bool :=
  match e with
  | ConnectionError | HTTPError _ | JSONDecodeError => true
  | _ => false
  end.

(** A record [create] writes with [logger.error]: line 208, with the parsed
    payload [data] rendered into the message, or line 212, with the request
    exception. *)
Inductive log_record : Type :=
| ParseFailureLogged (data : json)
| RequestErrorLogged (e : py_exc).

(** The [logger.error] records of one [create] call, in order, computed
    along the same steps as [create]. *)
Definition create_error_log (c : client) (messages : list llm_message) (tools : option (list tool))
    (backend : backend_t) (fresh : nat -> string) : list log_record :=
  let url := request_url c in
  let payload := build_payload messages tools in
  let t := _make_api_request_with_retry (backend url payload) in
  match outcome t with
  | Err e => if is_request_exception e then [RequestErrorLogged e] else []
  | Ok data =>
      match parse_response fresh data with
      | Err (KeyError _ | IndexError _) => [ParseFailureLogged data]
      | _ => []
      end
  end.

(** [create_stream]: awaits [create] and yields [result.content] once. The
    chunks yielded, then the exception ending the generator, if any. *)
Definition create_stream (c : client) (messages : list llm_message) (tools : option (list tool))
    (backend : backend_t) (fresh : nat -> string)
  : client * (list string * option py_exc) :=
  let '(c', r) := create c messages tools backend fresh in
  match r with
  | Ok res => (c', ([cr_content res], None))
  | Err e => (c', ([], Some e))
  end.

(** ** Internal evidence search ([RagFlowClient.search], [retrieve_legal_documents]) *)

(** A value of a pydantic [float] field: the float of a JSON integer (or of
    a bool), or the float pydantic parses from a numeric string. *)
Inductive py_float : Type :=
| FloatOfInt (z : Z)
| FloatOfStr (s : string).

Record evidence_item : Type := mk_evidence_item {
  ei_content : string;
  ei_document_name : string;
  ei_chunk_id : option string;
  ei_similarity_score : option py_float;
  ei_original_metadata : list (string * json)
}.

Record evidence_pack : Type := mk_evidence_pack {
  ep_query : string;
  ep_items : list evidence_item;
  ep_total_items : Z
}.

(** pydantic [Optional[str]] and [Optional[float]] (integer-valued here). *)
Definition validate_opt_str (v : json) : result (option string) :=
  match v with
  | JNull => Ok None
  | JStr s => Ok (Some s)
  | _ => Err ValidationError
  end.

(** Strings accepted by a lax pydantic [float]: Rust's [f64] syntax
    ([sign? (inf | infinity | nan | digits [. digits] [e sign? digits])],
    case-insensitive) after trimming whitespace, or, failing that, the
    untrimmed string once underscores between two digits are removed. *)
Definition is_digit (c : Ascii.ascii) : bool :=
  let n := Ascii.nat_of_ascii c in Nat.leb 48 n && Nat.leb n 57.

Fixpoint span_digits (l : list Ascii.ascii) : nat * list Ascii.ascii :=
  match l with
  | c :: rest => if is_digit c then let '(n, r) := span_digits rest in (S n, r) else (O, l)
  | [] => (O, [])
  end.

Definition drop_sign (l : list Ascii.ascii) : list Ascii.ascii :=
  match l with
  | c :: rest => if Ascii.eqb c "+" || Ascii.eqb c "-" then rest else l
  | [] => []
  end.

Definition exponent_ok (l : list Ascii.ascii) : bool :=
  match l with
  | [] => true
  | e :: rest =>
      (Ascii.eqb e "e" || Ascii.eqb e "E")
      && (let '(n, r) := span_digits (drop_sign rest) in
          negb (Nat.eqb n 0) && match r with [] => true | _ => false end)
  end.

Definition decimal_ok (l : list Ascii.ascii) : bool :=
  let '(n1, r1) := span_digits l in
  match r1 with
  | c :: r2 =>
      if Ascii.eqb c "." then
        let '(n2, r3) := span_digits r2 in negb (Nat.eqb (n1 + n2) 0) && exponent_ok r3
      else negb (Nat.eqb n1 0) && exponent_ok r1
  | [] => negb (Nat.eqb n1 0)
  end.

Definition lower_ascii (c : Ascii.ascii) : Ascii.ascii :=
  let n := Ascii.nat_of_ascii c in
  if Nat.leb 65 n && Nat.leb n 90 then Ascii.ascii_of_nat (n + 32) else c.

Definition rust_f64_syntax (s : string) : bool :=
  let l := drop_sign (list_ascii_of_string s) in
  let low := string_of_list_ascii (map lower_ascii l) in
  String.eqb low "inf" || String.eqb low "infinity" || String.eqb low "nan" || decimal_ok l.

(** Rust's [str::trim] on ASCII input. *)
Definition is_rust_space (c : Ascii.ascii) : bool :=
  let n := Ascii.nat_of_ascii c in (Nat.leb 9 n && Nat.leb n 13) || Nat.eqb n 32.

Fixpoint trim_start (l : list Ascii.ascii) : list Ascii.ascii :=
  match l with
  | c :: rest => if is_rust_space c then trim_start rest else l
  | [] => []
  end.

Definition rust_trim (s : string) : string :=
  string_of_list_ascii (rev (trim_start (rev (trim_start (list_ascii_of_string s))))).

Fixpoint underscores_ok (prev : option Ascii.ascii) (l : list Ascii.ascii) : bool :=
  match l with
  | [] => true
  | c :: rest =>
      if Ascii.eqb c "_" then
        match prev, rest with
        | Some p, n :: _ => is_digit p && is_digit n && underscores_ok (Some c) rest
        | _, _ => false
        end
      else underscores_ok (Some c) rest
  end.

Definition strip_underscores (s : string) : option string :=
  let l := list_ascii_of_string s in
  if underscores_ok None l
  then Some (string_of_list_ascii (filter (fun c => negb (Ascii.eqb c "_")) l))
  else None.

Definition float_str_ok (s : string) : bool :=
  rust_f64_syntax (rust_trim s)
  || match strip_underscores s with Some s' => rust_f64_syntax s' | None => false end.

(** pydantic's lax [Optional[float]]: ints, bools and numeric strings. *)
Definition validate_opt_float (v : json) : result (option py_float) :=
  match v with
  | JNull => Ok None
  | JNum z => Ok (Some (FloatOfInt z))
  | JBool b => Ok (Some (FloatOfInt (if b then 1 else 0)))
  | JStr s => if float_str_ok s then Ok (Some (FloatOfStr s)) else Err ValidationError
  | _ => Err ValidationError
  end.

Definition validate_dict (v : json) : result (list (string * json)) :=
  match v with JObj kvs => Ok kvs | _ => Err ValidationError end.

(** [EvidenceItem(...)] built from one returned chunk; [keyword_fallback]
    is the ['chunks'] branch, whose document name falls back on
    ['document_keyword']. *)
Definition make_item (keyword_fallback : bool) (doc : json) : result evidence_item :=
  inner <- py_get doc "content" (JStr "") ;;
  content <- py_get doc "content_with_weight" inner ;;
  name_default <- (if keyword_fallback
                   then py_get doc "document_keyword" (JStr "Unknown Document")
                   else Ok (JStr "Unknown Document")) ;;
  document_name <- py_get doc "doc_name" name_default ;;
  chunk_id <- py_get doc "chunk_id" JNull ;;
  similarity <- py_get doc "similarity" JNull ;;
  c <- validate_str content ;;
  d <- validate_str document_name ;;
  ci <- validate_opt_str chunk_id ;;
  si <- validate_opt_float similarity ;;
  md <- validate_dict doc ;;
  Ok (mk_evidence_item c d ci si md).

Fixpoint make_items (keyword_fallback : bool) (docs : list json) : result (list evidence_item) :=
  match docs with
  | [] => Ok []
  | doc :: rest =>
      item <- make_item keyword_fallback doc ;;
      items <- make_items keyword_fallback rest ;;
      Ok (item :: items)
  end.

(** [x == 0] for a decoded JSON value ([False == 0] holds in Python). *)
Definition py_eq_zero (v : json) : bool :=
  match v with
  | JNum z => z =? 0
  | JBool b => negb b
  | _ => false
  end.

Definition is_dict (v : json) : bool :=
  match v with JObj _ => true | _ => false end.

Definition is_list (v : json) : bool :=
  match v with JArr _ => true | _ => false end.

(** Lines 66-113: from the decoded body to the list of items. *)
Definition items_of_data (data : json) : result (list evidence_item) :=
  code <- py_get data "code" JNull ;;
  has_data <- (if py_eq_zero code then py_contains "data" data else Ok false) ;;
  if has_data then
    data_content <- py_getitem data (KStr "data") ;;
    has_chunks <- (if is_dict data_content then py_contains "chunks" data_content else Ok false) ;;
    if has_chunks then
      chunks <- py_getitem data_content (KStr "chunks") ;;
      docs <- py_iter chunks ;;
      make_items true docs
    else if is_list data_content then
      docs <- py_iter data_content ;;
      make_items false docs
    else
      has_docs <- (if is_dict data_content then py_contains "docs" data_content else Ok false) ;;
      if has_docs then
        docs_v <- py_getitem data_content (KStr "docs") ;;
        docs <- py_iter docs_v ;;
        make_items false docs
      else Ok []
  else Ok [].

(** The body of the [try] of [search] (lines 57-113), given what
    [requests.post] yields for the retrieval request. *)
Definition search_try (o : http_outcome) : result (list evidence_item) :=
  match o with
  | ConnFailure => Err ConnectionError
  | HttpResponse status _ body =>
      _ <- raise_for_status status ;;
      data <- response_json body ;;
      items_of_data data
  end.

(** [RagFlowClient.search]: every exception of the [try] block is caught and
    turned into an empty pack. *)
Definition search (query : string) (o : http_outcome) : evidence_pack :=
  match search_try o with
  | Ok items => mk_evidence_pack query items (Z.of_nat (length items))
  | Err _ => mk_evidence_pack query [] 0
  end.

(** [retrieve_legal_documents]: the pack of [client.search] ([model_dump]
    only renders it as a dict). *)
Definition retrieve_legal_documents (query : string) (o : http_outcome) : evidence_pack :=
  search query o.

(** ** The two-phase workflow ([main]) *)

Definition nl : string := String (Ascii.ascii_of_nat 10) EmptyString.

Record chat_message : Type := mk_chat_message {
  msg_source : string;
  msg_content : string
}.

Definition transcript : Type := list chat_message.

Definition research_task (query : string) : string :=
  "Legal Query: " ++ query ++ nl ++ "Please plan and execute the research.".

(** The f-string of lines 71-75. *)
Definition synthesis_task (query : string) : string :=
  "Based on the approved research above, produce the final legal research document."
  ++ nl ++ nl ++ "Original Query: " ++ query ++ nl ++ nl
  ++ "Please synthesize a comprehensive, well-formatted legal brief with proper citations.".

Record workflow_run : Type := mk_workflow_run {
  research_result : transcript;
  synthesis_seed : string;
  synthesis_result : transcript
}.

(** [main] for a query: each team run maps its seed task to its transcript
    (the console tap only prints). *)
Definition main_workflow (query : string) (run_research run_synthesis : string -> transcript)
  : workflow_run :=
  let task := research_task query in
  let rr := run_research task in
  let st := synthesis_task query in
  mk_workflow_run rr st (run_synthesis st).

Definition main_query : string := "Khoáng sản nhóm III".

(** ** Dataset selection ([RagFlowClient.search], lines 38-46) *)

(** [str.isspace] on a single byte: the ASCII whitespace and the separators
    0x1c-0x1f (Unicode whitespace beyond ASCII is not modelled). *)
Definition is_py_space (c : Ascii.ascii) : bool :=
  let n := Ascii.nat_of_ascii c in
  (Nat.leb 9 n && Nat.leb n 13) || (Nat.leb 28 n && Nat.leb n 32).

Fixpoint lstrip (s : string) : string :=
  match s with
  | EmptyString => EmptyString
  | String c rest => if is_py_space c then lstrip rest else s
  end.

Fixpoint string_rev (s : string) : string :=
  match s with
  | EmptyString => EmptyString
  | String c rest => string_rev rest ++ String c EmptyString
  end.

(** [s.strip()]. *)
Definition strip (s : string) : string := string_rev (lstrip (string_rev (lstrip s))).

(** [s.split(",")]. *)
Fixpoint split_comma (s : string) : list string :=
  match s with
  | EmptyString => [EmptyString]
  | String c rest =>
      match split_comma rest with
      | [] => [String c EmptyString]
      | cur :: others =>
          if Ascii.eqb c "," then EmptyString :: cur :: others else String c cur :: others
      end
  end.

(** The [knowledge_ids] sent as ["dataset_ids"]: the argument when it is a
    non-empty list, else the ids of [RAGFLOW_KNOWLEDGE_ID] when it is set and
    non-empty, else none. *)
Definition resolve_knowledge_ids (knowledge_ids : option (list string)) (env_ids : option string)
  : list string :=
  match knowledge_ids with
  | Some ((_ :: _) as ids) => ids
  | _ =>
      match env_ids with
      | Some e => if String.eqb e "" then [] else map strip (split_comma e)
      | None => []
      end
  end.

(** ** Web search ([search_legal_updates], tools.py lines 40-57) *)

(** What [DDGS().text] yields: its results (dicts of strings) or an
    exception with its message. *)
Inductive ddgs_outcome : Type :=
| DdgsResults (results : list (list (string * string)))
| DdgsFailure (msg : string).

Definition ddgs_keywords (query : string) : string :=
  "hiệu lực văn bản " ++ query ++ " thuvienphapluat vanbanphapluat".

(** [r[k]] on a result dict. *)
Definition result_field (r : list (string * string)) (k : string) : result string :=
  match lookup_str k r with Some v => Ok v | None => Err (KeyError (KStr k)) end.

Definition format_result (r : list (string * string)) : result string :=
  title <- result_field r "title" ;;
  href <- result_field r "href" ;;
  body <- result_field r "body" ;;
  Ok ("Title: " ++ title ++ nl ++ "Link: " ++ href ++ nl ++ "Snippet: " ++ body)%string.

Fixpoint format_results (rs : list (list (string * string))) : result (list string) :=
  match rs with
  | [] => Ok []
  | r :: rest =>
      block <- format_result r ;;
      blocks <- format_results rest ;;
      Ok (block :: blocks)
  end.

(** [sep.join(parts)]. *)
Fixpoint join_sep (sep : string) (parts : list string) : string :=
  match parts with
  | [] => EmptyString
  | [p] => p
  | p :: rest => p ++ sep ++ join_sep sep rest
  end.

Definition web_not_found : string := "Không tìm thấy thông tin trên web.".
Definition web_error_prefix : string := "Lỗi khi search web: ".

(** [search_legal_updates]: [ddgs] answers the keywords it is given. *)
Definition search_legal_updates (query : string) (ddgs : string -> ddgs_outcome) : string :=
  match ddgs (ddgs_keywords query) with
  | DdgsFailure msg => web_error_prefix ++ msg
  | DdgsResults [] => web_not_found
  | DdgsResults rs =>
      match format_results rs with
      | Ok evidence => join_sep (nl ++ "---" ++ nl) evidence
      | Err e => web_error_prefix ++ exc_str e
      end
  end.

(** ** Model client selection ([get_model_client], config.py lines 10-32) *)

Inductive model_choice : Type :=
| UseNativeGemini (api_key : string)
| UseOpenAI (api_key : string) (base_url : option string).

(** Truthiness of an environment variable read with [os.getenv]. *)
Definition env_truthy (v : option string) : bool :=
  match v with Some s => negb (String.eqb s "") | None => false end.

Definition get_model_client (openai_api_key gemini_api_key openai_base_url : option string)
  : result model_choice :=
  let api_key :=
    match openai_api_key with
    | Some k => if String.prefix "sk-..." k || String.eqb k "sk-..." then None else Some k
    | None => None
    end in
  if negb (env_truthy api_key) && env_truthy gemini_api_key
  then Ok (UseNativeGemini (match gemini_api_key with Some g => g | None => "" end))
  else if negb (env_truthy api_key)
  then Err (ValueError "No valid API Key found (OPENAI_API_KEY or GEMINI_API_KEY)")
  else Ok (UseOpenAI (match api_key with Some k => k | None => "" end) openai_base_url).

(** * Properties *)

(** ** Concrete runs of the retry wrapper *)

Definition throttle : http_outcome := HttpResponse 429 None None.
Definition ok_response (j : json) : http_outcome := HttpResponse 200 None (Some j).

(** Four throttles, then success. *)
Definition backend_4_then_ok (n : nat) : http_outcome :=
  if Nat.leb n 4 then throttle else ok_response (JStr "done").

Example retry_4_then_ok :
  _make_api_request_with_retry backend_4_then_ok = mk_trace (Ok (JStr "done")) [2; 4; 8; 16] 5.
Proof. reflexivity. Qed.

Example retry_always_throttled :
  _make_api_request_with_retry (fun _ => throttle)
  = mk_trace (Err (RetryError (RateLimitError "Rate limit exceeded. Retry-After: 60")))
      [2; 4; 8; 16] 5.
Proof. reflexivity. Qed.

Example retry_500 :
  _make_api_request_with_retry (fun _ => HttpResponse 500 None None) = mk_trace (Err (HTTPError 500)) [] 1.
Proof. reflexivity. Qed.

Example synthesis_task_sample :
  str_contains "Original Query: Q" (synthesis_task "Q") = true.
Proof. reflexivity. Qed.

(** ** Retry lemmas *)

Definition is_throttle (o : http_outcome) : bool :=
  match o with
  | HttpResponse status _ _ => status =? 429
  | ConnFailure => false
  end.

Lemma throttle_raises (o : http_outcome) :
  is_throttle o = true -> exists msg, _make_api_request o = Err (RateLimitError msg).
Proof.
  destruct o as [|status ra body]; simpl; [discriminate|].
  intros H. rewrite H. eexists. reflexivity.
Qed.

Lemma retry_wait_formula (n : nat) :
  (1 <= n)%nat -> retry_wait n = Z.min 60 (2 * 2 ^ (Z.of_nat n - 1)).
Proof.
  intros Hn. unfold retry_wait, wait_exponential.
  assert (0 <= Z.of_nat n - 1) by lia.
  pose proof (Z.pow_pos_nonneg 2 (Z.of_nat n - 1)). lia.
Qed.

Lemma retry_loop_succeeds (call : nat -> result json) (j : json) :
  forall k a fuel,
    (1 <= a)%nat -> (a + k <= 5)%nat -> (k <= fuel)%nat ->
    (forall n, (a <= n < a + k)%nat -> exists msg, call n = Err (RateLimitError msg)) ->
    call (a + k)%nat = Ok j ->
    retry_loop call fuel a = mk_trace (Ok j) (map retry_wait (seq a k)) (a + k).
Proof.
  induction k as [|k IH]; intros a fuel Ha Hk Hf Hthr Hok.
  - rewrite Nat.add_0_r in *. destruct fuel; simpl; rewrite Hok; reflexivity.
  - destruct fuel as [|fuel']; [lia|].
    destruct (Hthr a) as [msg Hmsg]; [lia|].
    cbn [retry_loop]. rewrite Hmsg. cbn [negb is_rate_limit].
    assert (Hstop : stop_after_attempt 5 a = false) by (apply Nat.leb_gt; lia).
    rewrite Hstop.
    rewrite (IH (S a) fuel'); try lia.
    + simpl. f_equal. f_equal. lia.
    + intros n Hn. apply Hthr. lia.
    + replace (S a + k)%nat with (a + S k)%nat by lia. exact Hok.
Qed.

Lemma retry_loop_exhausted (call : nat -> result json) :
  forall k a fuel,
    (1 <= a)%nat -> (a + k = 5)%nat -> (k <= fuel)%nat ->
    (forall n, (a <= n <= 5)%nat -> exists msg, call n = Err (RateLimitError msg)) ->
    exists msg, call 5%nat = Err (RateLimitError msg) /\
      retry_loop call fuel a = mk_trace (Err (RetryError (RateLimitError msg))) (map retry_wait (seq a k)) 5.
Proof.
  induction k as [|k IH]; intros a fuel Ha Hk Hf Hthr.
  - rewrite Nat.add_0_r in Hk. subst a.
    destruct (Hthr 5%nat) as [msg Hmsg]; [lia|].
    exists msg. split; [exact Hmsg|].
    destruct fuel; simpl; rewrite Hmsg; reflexivity.
  - destruct fuel as [|fuel']; [lia|].
    destruct (Hthr a) as [msg Hmsg]; [lia|].
    destruct (IH (S a) fuel') as [msg5 [H5 Hrec]]; try lia.
    { intros n Hn. apply Hthr. lia. }
    exists msg5. split; [exact H5|].
    cbn [retry_loop]. rewrite Hmsg. cbn [negb is_rate_limit].
    assert (Hstop : stop_after_attempt 5 a = false) by (apply Nat.leb_gt; lia).
    rewrite Hstop, Hrec. reflexivity.
Qed.

Lemma retry_loop_attempts_bound (call : nat -> result json) :
  forall fuel a, (1 <= a <= 5)%nat -> (attempts (retry_loop call fuel a) <= 5)%nat.
Proof.
  induction fuel as [|fuel IH]; intros a Ha; cbn [retry_loop].
  - destruct (call a) as [j|e]; cbn [attempts]; [lia|].
    destruct (negb (is_rate_limit e)); cbn [attempts]; [lia|].
    destruct (stop_after_attempt 5 a); cbn [attempts]; lia.
  - destruct (call a) as [j|e]; cbn [attempts]; [lia|].
    destruct (negb (is_rate_limit e)); cbn [attempts]; [lia|].
    destruct (stop_after_attempt 5 a) eqn:Hs; cbn [attempts]; [lia|].
    apply Nat.leb_gt in Hs. apply IH. lia.
Qed.

Lemma throttled_prefix (backend : nat -> http_outcome) (a b : nat) :
  (forall n, (a <= n <= b)%nat -> is_throttle (backend n) = true) ->
  forall n, (a <= n <= b)%nat -> exists msg, _make_api_request (backend n) = Err (RateLimitError msg).
Proof. intros H n Hn. apply throttle_raises, H, Hn. Qed.

(** C1. The retry wrapper around the transport step retries a rate-limited
    call up to 5 attempts in total; the delay before retry N is
    min(60, 2 * 2^(N-1)), so four throttles give the delays 2, 4, 8, 16; a
    successful attempt's result is returned (and parsed by create); after
    5 throttled attempts the call fails with tenacity's RetryError, a
    BackendError, and no 6th attempt is made. *)
Theorem retry_policy :
  (forall n, (1 <= n)%nat -> retry_wait n = Z.min 60 (2 * 2 ^ (Z.of_nat n - 1)))
  /\ (forall backend, (attempts (_make_api_request_with_retry backend) <= 5)%nat)
  /\ (forall backend k j,
        (k < 5)%nat ->
        (forall n, (1 <= n <= k)%nat -> is_throttle (backend n) = true) ->
        _make_api_request (backend (S k)) = Ok j ->
        _make_api_request_with_retry backend = mk_trace (Ok j) (map retry_wait (seq 1 k)) (S k))
  /\ (forall backend,
        (forall n, (1 <= n <= 5)%nat -> is_throttle (backend n) = true) ->
        exists msg,
          _make_api_request_with_retry backend
          = mk_trace (Err (RetryError (RateLimitError msg))) [2; 4; 8; 16] 5
          /\ kind_of (RetryError (RateLimitError msg)) = BackendError)
  /\ (forall c messages tools (backend : backend_t) fresh k j,
        let b := backend (request_url c) (build_payload messages tools) in
        (k < 5)%nat ->
        (forall n, (1 <= n <= k)%nat -> is_throttle (b n) = true) ->
        _make_api_request (b (S k)) = Ok j ->
        snd (create c messages tools backend fresh) = parse_or_value_error fresh j)
  /\ (forall c messages tools (backend : backend_t) fresh,
        let b := backend (request_url c) (build_payload messages tools) in
        (forall n, (1 <= n <= 5)%nat -> is_throttle (b n) = true) ->
        exists e, snd (create c messages tools backend fresh) = Err e /\ kind_of e = BackendError).
Proof.
  assert (Hok : forall backend k j,
             (k < 5)%nat ->
             (forall n, (1 <= n <= k)%nat -> is_throttle (backend n) = true) ->
             _make_api_request (backend (S k)) = Ok j ->
             _make_api_request_with_retry backend = mk_trace (Ok j) (map retry_wait (seq 1 k)) (S k)).
  { intros backend k j Hk Hthr Hj. unfold _make_api_request_with_retry.
    apply (retry_loop_succeeds _ j k 1 5); try lia.
    - intros n Hn. apply (throttled_prefix backend 1 k); [exact Hthr | lia].
    - exact Hj. }
  assert (Hfail : forall backend,
             (forall n, (1 <= n <= 5)%nat -> is_throttle (backend n) = true) ->
             exists msg,
               _make_api_request_with_retry backend
               = mk_trace (Err (RetryError (RateLimitError msg))) [2; 4; 8; 16] 5).
  { intros backend Hthr. unfold _make_api_request_with_retry.
    destruct (retry_loop_exhausted (fun n => _make_api_request (backend n)) 4 1 5)
      as [msg [_ Hrec]]; try lia.
    - intros n Hn. apply (throttled_prefix backend 1 5); [exact Hthr | lia].
    - exists msg. rewrite Hrec. reflexivity. }
  split; [exact retry_wait_formula|].
  split; [intros backend; apply retry_loop_attempts_bound; lia|].
  split; [exact Hok|].
  split; [intros backend Hthr; destruct (Hfail backend Hthr) as [msg Hm];
          exists msg; split; [exact Hm | reflexivity]|].
  split.
  - intros c messages tools backend fresh k j b Hk Hthr Hj.
    unfold create. simpl. fold b. rewrite (Hok b k j Hk Hthr Hj). reflexivity.
  - intros c messages tools backend fresh b Hthr.
    unfold create. simpl. fold b. destruct (Hfail b Hthr) as [msg Hm]. rewrite Hm.
    eexists. split; reflexivity.
Qed.

Lemma retry_policy_witness :
  _make_api_request_with_retry backend_4_then_ok
    = mk_trace (Ok (JStr "done")) (map retry_wait (seq 1 4)) 5
  /\ exists msg,
       _make_api_request_with_retry (fun _ => throttle)
       = mk_trace (Err (RetryError (RateLimitError msg))) [2; 4; 8; 16] 5
       /\ kind_of (RetryError (RateLimitError msg)) = BackendError.
Proof.
  destruct retry_policy as [_ [_ [Hok [Hfail _]]]]. split.
  - apply (Hok backend_4_then_ok 4%nat (JStr "done")); [lia | | reflexivity].
    intros n [_ Hn]. unfold backend_4_then_ok.
    rewrite (proj2 (Nat.leb_le n 4) Hn). reflexivity.
  - apply Hfail. intros n _. reflexivity.
Defined.

(** C2. In the transport step a 429 response always raises the rate-limit
    signal, whatever its body, so no data is returned; any other error status
    (4xx or 5xx) raises HTTPError, a BackendError, on the first attempt with
    no retry and no sleep, also when seen through create. *)
Theorem transport_error_statuses :
  (forall ra body, exists msg,
      _make_api_request (HttpResponse 429 ra body) = Err (RateLimitError msg))
  /\ (forall backend status ra body,
        backend 1%nat = HttpResponse status ra body ->
        400 <= status < 600 -> status <> 429 ->
        _make_api_request_with_retry backend = mk_trace (Err (HTTPError status)) [] 1
        /\ kind_of (HTTPError status) = BackendError)
  /\ (forall c messages tools (backend : backend_t) fresh status ra body,
        backend (request_url c) (build_payload messages tools) 1%nat = HttpResponse status ra body ->
        400 <= status < 600 -> status <> 429 ->
        snd (create c messages tools backend fresh) = Err (HTTPError status)).
Proof.
  assert (Hstat : forall backend status ra body,
             backend 1%nat = HttpResponse status ra body ->
             400 <= status < 600 -> status <> 429 ->
             _make_api_request_with_retry backend = mk_trace (Err (HTTPError status)) [] 1).
  { intros backend status ra body Hb Hs H429.
    unfold _make_api_request_with_retry. cbn [retry_loop]. rewrite Hb.
    unfold _make_api_request.
    assert (E1 : (status =? 429) = false) by (apply Z.eqb_neq; exact H429).
    assert (E2 : ((400 <=? status) && (status <? 600))%bool = true)
      by (apply andb_true_intro; split; [apply Z.leb_le | apply Z.ltb_lt]; lia).
    rewrite E1. unfold bind, raise_for_status. rewrite E2. reflexivity. }
  split; [intros ra body; eexists; reflexivity|].
  split; [intros; split; [eapply Hstat; eauto | reflexivity]|].
  intros c messages tools backend fresh status ra body Hb Hs H429.
  unfold create. cbn [snd].
  rewrite (Hstat _ status ra body Hb Hs H429). reflexivity.
Qed.

Lemma transport_error_statuses_witness :
  _make_api_request_with_retry (fun _ => HttpResponse 503 None None)
    = mk_trace (Err (HTTPError 503)) [] 1
  /\ kind_of (HTTPError 503) = BackendError.
Proof.
  destruct transport_error_statuses as [_ [H _]].
  apply (H (fun _ => HttpResponse 503 None None) 503 None None); [reflexivity | lia | lia].
Defined.

(** ** The two-phase workflow *)

Definition critic_message : chat_message :=
  mk_chat_message "Critic_Agent" "Dieu 5 Luat Khoang san 2010 applies. APPROVE".

(** A phase-1 transcript: the seed task and the critic's approval. *)
Definition research_sample (task : string) : transcript :=
  [mk_chat_message "user" task; critic_message].

Lemma synthesis_seed_is_fixed (query : string) (rr rs : string -> transcript) :
  synthesis_seed (main_workflow query rr rs) = synthesis_task query.
Proof. reflexivity. Qed.

(** C3 (fails). The comment of [main] says the research context is passed
    to the synthesizer, but the phase-2 seed is built from the query alone:
    with the hard-coded query and a phase-1 transcript whose critic message
    approves the research, that message's content does not occur in the
    task seeding phase 2. *)
Theorem synthesis_seed_omits_research (run_synthesis : string -> transcript) :
  let r := main_workflow main_query research_sample run_synthesis in
  In critic_message (research_result r)
  /\ str_contains (msg_content critic_message) (synthesis_seed r) = false.
Proof.
  simpl. split.
  - right. left. reflexivity.
  - vm_compute. reflexivity.
Qed.

(** ** Message conversion *)

Definition sys_json (t : string) : json := JObj [("parts", JArr [text_part t])].

(** The content of the last system message, if any. *)
Fixpoint last_system (messages : list llm_message) : option string :=
  match messages with
  | [] => None
  | SystemMessage t :: rest =>
      match last_system rest with Some x => Some x | None => Some t end
  | _ :: rest => last_system rest
  end.

Definition is_system (m : llm_message) : bool :=
  match m with SystemMessage _ => true | _ => false end.

Definition is_tool_result (m : llm_message) : bool :=
  match m with FunctionExecutionResultMessage _ => true | _ => false end.

(** The contents entries a message contributes: one for a user message,
    one for an assistant message with text content, none otherwise. *)
Definition message_entries (m : llm_message) : list json :=
  match m with
  | UserMessage (UCStr c) => [gemini_content "user" c]
  | UserMessage (UCParts ps) => [gemini_content "user" (join_empty (user_text_parts ps))]
  | AssistantMessage (ACStr c) => [gemini_content "model" c]
  | _ => []
  end.

Definition payload_field (k : string) (p : json) : option json :=
  match p with JObj kvs => lookup k kvs | _ => None end.

Lemma convert_fold (messages : list llm_message) :
  forall acc sys,
    fold_left convert_step messages (acc, sys)
    = (acc ++ concat (map message_entries messages),
       match last_system messages with Some t => Some (sys_json t) | None => sys end).
Proof.
  induction messages as [|m rest IH]; intros acc sys; simpl.
  - rewrite app_nil_r. reflexivity.
  - destruct m as [t | [c | ps] | [c | calls] | frs]; simpl; rewrite IH;
      rewrite <- ?app_assoc; simpl; rewrite ?app_nil_r; try reflexivity;
      destruct (last_system rest); reflexivity.
Qed.

Lemma payload_contents (messages : list llm_message) (tools : option (list tool)) :
  payload_field "contents" (build_payload messages tools)
  = Some (JArr (concat (map message_entries messages))).
Proof.
  unfold build_payload, convert_messages. rewrite convert_fold. reflexivity.
Qed.

Lemma payload_system_instruction (messages : list llm_message) (tools : option (list tool)) :
  payload_field "system_instruction" (build_payload messages tools)
  = option_map sys_json (last_system messages).
Proof.
  unfold build_payload, convert_messages. rewrite convert_fold. simpl.
  destruct (gemini_tools tools); destruct (last_system messages); reflexivity.
Qed.

Lemma entries_without_system (messages : list llm_message) :
  concat (map message_entries (filter (fun m => negb (is_system m)) messages))
  = concat (map message_entries messages).
Proof.
  induction messages as [|m rest IH]; [reflexivity|].
  destruct m; simpl; rewrite IH; reflexivity.
Qed.

Lemma entries_without_tool_results (messages : list llm_message) :
  concat (map message_entries (filter (fun m => negb (is_tool_result m)) messages))
  = concat (map message_entries messages).
Proof.
  induction messages as [|m rest IH]; [reflexivity|].
  destruct m; simpl; rewrite IH; reflexivity.
Qed.

Definition sample_call : function_call :=
  mk_function_call "call-1" "retrieve_legal_documents" (JObj [("query", JStr "khoang san")]).

Definition sample_tool_result : function_execution_result :=
  mk_fer "{'query': 'khoang san', 'items': [], 'total_items': 0}" "call-1".

(** A turn with a tool round-trip: the query, the assistant's function
    call and the tool's result. *)
Definition tool_round_trip : list llm_message :=
  [UserMessage (UCStr "khoang san nhom III");
   AssistantMessage (ACCalls [sample_call]);
   FunctionExecutionResultMessage [sample_tool_result]].

(** C4 (fails). The tool-result message of a tool round-trip is not mapped
    into the request: the payload holds only the user's message. *)
Lemma tool_result_dropped :
  build_payload tool_round_trip None
  = JObj [("contents", JArr [gemini_content "user" "khoang san nhom III"])].
Proof. reflexivity. Qed.

(** C4 (as amended). The request's contents list holds, in input order, one
    entry per user message (role "user", a list content joined from its
    text parts) and one per assistant message with text content (role
    "model"); system messages go to the instruction channel; tool-result
    messages and assistant messages carrying function calls contribute
    nothing: removing every tool-result message leaves the contents
    unchanged. *)
Theorem payload_maps_text_roles (messages : list llm_message) (tools : option (list tool)) :
  payload_field "contents" (build_payload messages tools)
    = Some (JArr (concat (map message_entries messages)))
  /\ payload_field "contents" (build_payload messages tools)
    = payload_field "contents"
        (build_payload (filter (fun m => negb (is_tool_result m)) messages) tools)
  /\ payload_field "system_instruction" (build_payload messages tools)
    = option_map sys_json (last_system messages).
Proof.
  split; [apply payload_contents|]. split.
  - rewrite !payload_contents, entries_without_tool_results. reflexivity.
  - apply payload_system_instruction.
Qed.

(** C10. With several system messages only the last one's content is sent,
    as the system instruction; the contents list does not depend on the
    system messages at all (it is the one of the input with every system
    message removed). *)
Theorem last_system_message_wins (messages : list llm_message) (tools : option (list tool)) :
  payload_field "system_instruction" (build_payload messages tools)
    = option_map sys_json (last_system messages)
  /\ payload_field "contents" (build_payload messages tools)
    = payload_field "contents"
        (build_payload (filter (fun m => negb (is_system m)) messages) tools).
Proof.
  split; [apply payload_system_instruction|].
  rewrite !payload_contents, entries_without_system. reflexivity.
Qed.

Example two_system_messages :
  build_payload [SystemMessage "A"; UserMessage (UCStr "q"); SystemMessage "B"] None
  = JObj [("contents", JArr [gemini_content "user" "q"]); ("system_instruction", sys_json "B")].
Proof. reflexivity. Qed.

(** ** Schema cleaning *)

(** Whether key [k] occurs in some dict anywhere inside [j], lists included. *)
Fixpoint has_key_deep (k : string) (j : json) : bool :=
  match j with
  | JObj kvs =>
      (fix go (l : list (string * json)) : bool :=
         match l with
         | [] => false
         | (k', v) :: rest => String.eqb k k' || has_key_deep k v || go rest
         end) kvs
  | JArr l =>
      (fix go (l : list json) : bool :=
         match l with
         | [] => false
         | v :: rest => has_key_deep k v || go rest
         end) l
  | _ => false
  end.

(** The parameter schema of a tool with an optional argument, as pydantic
    renders [Optional[str]]: the alternatives sit in an [anyOf] list. *)
Definition optional_param_schema : json :=
  JObj [("type", JStr "object");
        ("properties",
          JObj [("court",
                  JObj [("anyOf", JArr [JObj [("type", JStr "string"); ("title", JStr "Court")];
                                        JObj [("type", JStr "null")]]);
                        ("title", JStr "Court")])]);
        ("title", JStr "Args");
        ("additionalProperties", JBool false)].

Definition optional_param_tool : tool :=
  mk_tool (Some "search_court") (Some "Search a court's rulings") (Some optional_param_schema).

(** C5 (fails). [clean_schema] does not descend into lists: for a schema
    whose alternatives are listed under [anyOf], the declaration sent to the
    backend still carries the nested ["title"] key, though the outer ones
    are gone. *)
Theorem clean_schema_skips_lists :
  gemini_tools (Some [optional_param_tool])
  = [JObj [("function_declarations",
            JArr [JObj [("name", JStr "search_court");
                        ("description", JStr "Search a court's rulings");
                        ("parameters",
                          JObj [("type", JStr "object");
                                ("properties",
                                  JObj [("court",
                                          JObj [("anyOf",
                                                  JArr [JObj [("type", JStr "string");
                                                              ("title", JStr "Court")];
                                                        JObj [("type", JStr "null")]])])])])]])]]
  /\ has_key_deep "title" (clean_schema optional_param_schema) = true.
Proof. split; reflexivity. Qed.

(** ** Response parsing *)

Definition parse_error_msg (detail : string) : py_exc :=
  ValueError ("Invalid response format from Gemini: " ++ detail).

(** Two different success payloads that both lack ["candidates"]. *)
Definition empty_payload : json := JObj [].
Definition blocked_payload : json :=
  JObj [("promptFeedback", JObj [("blockReason", JStr "SAFETY")])].

Definition answer_with (p : json) : backend_t := fun _ _ _ => ok_response p.

(** C6 (fails). The error raised for an unparseable payload does not carry
    the payload: two different payloads yield the same [ValueError], whose
    message names only the missing key. *)
Lemma parse_error_drops_payload :
  empty_payload <> blocked_payload
  /\ snd (create (new_client "k" "gemini-2.0-flash-exp") [UserMessage (UCStr "q")] None
            (answer_with empty_payload) (fun _ => "id"))
     = Err (parse_error_msg "'candidates'")
  /\ snd (create (new_client "k" "gemini-2.0-flash-exp") [UserMessage (UCStr "q")] None
            (answer_with blocked_payload) (fun _ => "id"))
     = Err (parse_error_msg "'candidates'").
Proof. split; [discriminate | split; reflexivity]. Qed.

(** Shape of a payload the parser maps into a [CreateResult]. *)
Definition part_ok (p : json) : Prop :=
  exists pk, p = JObj pk /\
    (lookup "functionCall" pk = None
     \/ exists fk name args,
          lookup "functionCall" pk = Some (JObj fk)
          /\ lookup "name" fk = Some name /\ lookup "args" fk = Some args).

Definition well_formed_response (data : json) : Prop :=
  exists kvs ckvs rest cokvs p0k ps,
    data = JObj kvs
    /\ lookup "candidates" kvs = Some (JArr (JObj ckvs :: rest))
    /\ lookup "content" ckvs = Some (JObj cokvs)
    /\ lookup "parts" cokvs = Some (JArr (JObj p0k :: ps))
    /\ Forall part_ok (JObj p0k :: ps)
    /\ (lookup "text" p0k = None \/ exists t, lookup "text" p0k = Some (JStr t))
    /\ (lookup "finishReason" ckvs = None \/ exists s, lookup "finishReason" ckvs = Some (JStr s))
    /\ (lookup "usageMetadata" kvs = None
        \/ exists ukvs, lookup "usageMetadata" kvs = Some (JObj ukvs)).

Lemma collect_tool_calls_ok (fresh : nat -> string) (parts : list json) :
  Forall part_ok parts -> forall acc, exists tcs, collect_tool_calls fresh acc parts = Ok tcs.
Proof.
  induction 1 as [|p rest Hp Hrest IH]; intros acc; [eexists; reflexivity|].
  destruct Hp as [pk [-> [Hnone | [fk [name [args [Hfc [Hn Ha]]]]]]]]; cbn [collect_tool_calls].
  - unfold py_contains. rewrite Hnone. cbn [bind]. apply IH.
  - unfold py_contains. rewrite Hfc. cbn [bind]. unfold py_getitem. rewrite Hfc.
    cbn [bind]. rewrite Hn. cbn [bind]. rewrite Ha. cbn [bind]. apply IH.
Qed.

Lemma parse_well_formed (fresh : nat -> string) (data : json) :
  well_formed_response data -> exists r, parse_or_value_error fresh data = Ok r.
Proof.
  intros (kvs & ckvs & rest & cokvs & p0k & ps & -> & Hc & Hco & Hp & Hparts & Htext & Hfin & Husage).
  destruct (collect_tool_calls_ok fresh _ Hparts []) as [tcs Htcs].
  unfold parse_or_value_error, parse_response.
  cbn -[collect_tool_calls lookup].
  rewrite Hc. cbn -[collect_tool_calls lookup].
  rewrite Hco. cbn -[collect_tool_calls lookup].
  rewrite Hp. cbn -[collect_tool_calls lookup].
  destruct Htext as [Ht | [t Ht]]; rewrite Ht; cbn -[collect_tool_calls lookup];
    rewrite ?Ht, ?Hc, ?Hco, ?Hp; cbn -[collect_tool_calls lookup];
    rewrite Htcs; cbn -[collect_tool_calls lookup];
    (destruct Hfin as [Hf | [s Hf]]; rewrite Hf; cbn -[collect_tool_calls lookup]);
    (destruct Husage as [Hu | [ukvs Hu]]; rewrite Hu); cbn -[collect_tool_calls lookup];
    eexists; reflexivity.
Qed.

(** C6 (as amended). A success payload lacking the top-level
    ["candidates"] field, with an empty candidates list, or whose first
    candidate lacks ["content"], makes the parser raise a [ValueError] (the
    ProtocolError) whose message is "Invalid response format from Gemini: "
    followed by the failing key or index error; the raw payload is not in
    the error but is written to the error log, as the one record of the
    call. A well-formed payload is mapped into a [CreateResult] without
    error and logs nothing, and create parses exactly what the transport
    returned. *)
Theorem parse_failures_raise_value_error (fresh : nat -> string) :
  (forall kvs, lookup "candidates" kvs = None ->
     parse_or_value_error fresh (JObj kvs) = Err (parse_error_msg "'candidates'"))
  /\ (forall kvs, lookup "candidates" kvs = Some (JArr []) ->
     parse_or_value_error fresh (JObj kvs) = Err (parse_error_msg "list index out of range"))
  /\ (forall kvs ckvs rest, lookup "candidates" kvs = Some (JArr (JObj ckvs :: rest)) ->
     lookup "content" ckvs = None ->
     parse_or_value_error fresh (JObj kvs) = Err (parse_error_msg "'content'"))
  /\ (forall detail, kind_of (parse_error_msg detail) = ProtocolError)
  /\ (forall data, well_formed_response data -> exists r, parse_or_value_error fresh data = Ok r)
  /\ (forall c messages tools (backend : backend_t) ra data,
        backend (request_url c) (build_payload messages tools) 1%nat
          = HttpResponse 200 ra (Some data) ->
        snd (create c messages tools backend fresh) = parse_or_value_error fresh data)
  /\ (forall c messages tools (backend : backend_t) ra kvs,
        backend (request_url c) (build_payload messages tools) 1%nat
          = HttpResponse 200 ra (Some (JObj kvs)) ->
        (lookup "candidates" kvs = None \/ lookup "candidates" kvs = Some (JArr [])
         \/ exists ckvs rest, lookup "candidates" kvs = Some (JArr (JObj ckvs :: rest))
                              /\ lookup "content" ckvs = None) ->
        create_error_log c messages tools backend fresh = [ParseFailureLogged (JObj kvs)])
  /\ (forall c messages tools (backend : backend_t) ra data,
        backend (request_url c) (build_payload messages tools) 1%nat
          = HttpResponse 200 ra (Some data) ->
        well_formed_response data ->
        create_error_log c messages tools backend fresh = []).
Proof.
  split; [intros kvs H; unfold parse_or_value_error, parse_response; cbn -[lookup];
          rewrite H; reflexivity|].
  split; [intros kvs H; unfold parse_or_value_error, parse_response; cbn -[lookup];
          rewrite H; reflexivity|].
  split; [intros kvs ckvs rest H Hc; unfold parse_or_value_error, parse_response; cbn -[lookup];
          rewrite H; cbn -[lookup]; rewrite Hc; reflexivity|].
  split; [reflexivity|].
  split; [apply parse_well_formed|].
  split.
  { intros c messages tools backend ra data Hb.
    unfold create, _make_api_request_with_retry. cbn [snd retry_loop]. rewrite Hb.
    reflexivity. }
  split.
  - intros c messages tools backend ra kvs Hb Hmiss.
    assert (He : exists e, parse_response fresh (JObj kvs) = Err e
                           /\ match e with KeyError _ | IndexError _ => True | _ => False end).
    { destruct Hmiss as [H | [H | [ckvs [rest [H Hc]]]]]; unfold parse_response.
      - exists (KeyError (KStr "candidates")). cbn -[lookup]. rewrite H. split; [reflexivity | exact I].
      - exists (IndexError "list index out of range"). cbn -[lookup]. rewrite H.
        split; [reflexivity | exact I].
      - exists (KeyError (KStr "content")). cbn -[lookup]. rewrite H. cbn -[lookup]. rewrite Hc.
        split; [reflexivity | exact I]. }
    destruct He as [e [He Hk]].
    unfold create_error_log, _make_api_request_with_retry. cbn [retry_loop]. rewrite Hb.
    cbn -[parse_response]. rewrite He. destruct e; try contradiction; reflexivity.
  - intros c messages tools backend ra data Hb Hwf.
    destruct (parse_well_formed fresh data Hwf) as [r Hr].
    assert (Hp : parse_response fresh data = Ok r).
    { unfold parse_or_value_error in Hr.
      destruct (parse_response fresh data) as [r'|[]]; try discriminate Hr; exact Hr. }
    unfold create_error_log, _make_api_request_with_retry. cbn [retry_loop]. rewrite Hb.
    cbn -[parse_response]. rewrite Hp. reflexivity.
Qed.

Definition well_formed_sample : json :=
  JObj [("candidates",
          JArr [JObj [("content", JObj [("parts", JArr [JObj [("text", JStr "answer")]])]);
                      ("finishReason", JStr "STOP")]]);
        ("usageMetadata", JObj [("promptTokenCount", JNum 5); ("candidatesTokenCount", JNum 7)])].

Lemma well_formed_sample_ok : well_formed_response well_formed_sample.
Proof.
  unfold well_formed_sample.
  do 6 eexists. split; [reflexivity|].
  split; [reflexivity|]. split; [reflexivity|]. split; [reflexivity|].
  split; [repeat constructor; eexists; split; [reflexivity | left; reflexivity]|].
  split; [right; eexists; reflexivity|].
  split; [right; eexists; reflexivity|].
  right. eexists. reflexivity.
Qed.

Lemma parse_failures_raise_value_error_witness :
  parse_or_value_error (fun _ => "id") (JObj [("error", JStr "quota")])
    = Err (parse_error_msg "'candidates'")
  /\ parse_or_value_error (fun _ => "id") (JObj [("candidates", JArr [])])
    = Err (parse_error_msg "list index out of range")
  /\ parse_or_value_error (fun _ => "id")
       (JObj [("candidates", JArr [JObj [("finishReason", JStr "SAFETY")]])])
    = Err (parse_error_msg "'content'")
  /\ (exists r, parse_or_value_error (fun _ => "id") well_formed_sample = Ok r)
  /\ snd (create (new_client "k" "m") [] None (answer_with well_formed_sample) (fun _ => "id"))
    = parse_or_value_error (fun _ => "id") well_formed_sample
  /\ create_error_log (new_client "k" "m") [] None (answer_with (JObj [("error", JStr "quota")]))
       (fun _ => "id")
     = [ParseFailureLogged (JObj [("error", JStr "quota")])]
  /\ create_error_log (new_client "k" "m") [] None (answer_with well_formed_sample) (fun _ => "id")
     = [].
Proof.
  destruct (parse_failures_raise_value_error (fun _ => "id"))
    as [H1 [H2 [H3 [_ [H5 [H6 [H7 H8]]]]]]].
  split; [apply H1; reflexivity|].
  split; [apply H2; reflexivity|].
  split; [apply (H3 _ [("finishReason", JStr "SAFETY")] []); reflexivity|].
  split; [apply H5; exact well_formed_sample_ok|].
  split; [apply (H6 _ _ _ _ None well_formed_sample); reflexivity|].
  split; [apply (H7 _ _ _ _ None [("error", JStr "quota")]); [reflexivity | left; reflexivity]|].
  apply (H8 _ _ _ _ None well_formed_sample); [reflexivity | exact well_formed_sample_ok].
Defined.

(** On the request path a request error, here a connection failure, is
    written to the error log once. *)
Example request_error_logged :
  create_error_log (new_client "k" "m") [] None (fun _ _ _ => ConnFailure) (fun _ => "id")
  = [RequestErrorLogged ConnectionError].
Proof. reflexivity. Qed.

(** ** Internal evidence search *)

Definition empty_pack (query : string) : evidence_pack := mk_evidence_pack query [] 0.

Example search_chunks_sample :
  retrieve_legal_documents "q"
    (HttpResponse 200 None
       (Some (JObj [("code", JNum 0);
                    ("data", JObj [("chunks", JArr [JObj [("content", JStr "Dieu 1");
                                                          ("doc_name", JStr "Luat")]])])])))
  = mk_evidence_pack "q" [mk_evidence_item "Dieu 1" "Luat" None None
                            [("content", JStr "Dieu 1"); ("doc_name", JStr "Luat")]] 1.
Proof. reflexivity. Qed.

(** C7. The evidence search never raises: it always returns a pack for the
    query whose count matches its items, and whenever the retrieval fails
    (connection failure, an error status, a body that is not JSON, or any
    exception while mapping the body) the pack is empty with count 0. *)
Theorem evidence_search_fails_soft (query : string) :
  (forall o, ep_query (retrieve_legal_documents query o) = query
             /\ ep_total_items (retrieve_legal_documents query o)
                = Z.of_nat (length (ep_items (retrieve_legal_documents query o))))
  /\ (forall o e, search_try o = Err e -> retrieve_legal_documents query o = empty_pack query)
  /\ retrieve_legal_documents query ConnFailure = empty_pack query
  /\ (forall status ra body, 400 <= status < 600 ->
        retrieve_legal_documents query (HttpResponse status ra body) = empty_pack query)
  /\ (forall status ra, retrieve_legal_documents query (HttpResponse status ra None) = empty_pack query).
Proof.
  assert (Hfail : forall o e, search_try o = Err e ->
                    retrieve_legal_documents query o = empty_pack query).
  { intros o e H. unfold retrieve_legal_documents, search. rewrite H. reflexivity. }
  split.
  { intros o. unfold retrieve_legal_documents, search.
    destruct (search_try o); simpl; split; reflexivity. }
  split; [exact Hfail|].
  split; [apply (Hfail _ ConnectionError); reflexivity|].
  split.
  - intros status ra body Hs. apply (Hfail _ (HTTPError status)).
    unfold search_try, raise_for_status.
    assert (E : ((400 <=? status) && (status <? 600))%bool = true)
      by (apply andb_true_intro; split; [apply Z.leb_le | apply Z.ltb_lt]; lia).
    rewrite E. reflexivity.
  - intros status ra. unfold retrieve_legal_documents, search, search_try.
    destruct (raise_for_status status); reflexivity.
Qed.

Lemma evidence_search_fails_soft_witness :
  retrieve_legal_documents "thu hoi dat" (HttpResponse 502 None None) = empty_pack "thu hoi dat"
  /\ retrieve_legal_documents "thu hoi dat"
       (HttpResponse 200 None (Some (JObj [("code", JNum 0); ("data", JArr [JStr "x"])])))
     = empty_pack "thu hoi dat".
Proof.
  destruct (evidence_search_fails_soft "thu hoi dat") as [_ [H2 [_ [H4 _]]]].
  split.
  - apply H4. lia.
  - apply (H2 _ AttributeError). reflexivity.
Defined.

(** ** Usage accounting *)

Lemma create_keeps_client (c : client) messages tools backend fresh :
  fst (create c messages tools backend fresh) = c.
Proof. reflexivity. Qed.

(** C8 (fails). [create] computes the call's usage but never adds it to
    [_total_usage]: after a successful call reporting 5 prompt and 7
    completion tokens on a fresh client, [total_usage()] and
    [actual_usage()] still report 0 and 0. *)
Theorem usage_counters_never_updated :
  let c := new_client "k" "gemini-2.0-flash-exp" in
  let '(c', r) := create c [UserMessage (UCStr "q")] None (answer_with well_formed_sample)
                    (fun _ => "id") in
  (exists res, r = Ok res /\ cr_usage res = mk_usage (JNum 5) (JNum 7))
  /\ total_usage c' = mk_usage (JNum 0) (JNum 0)
  /\ actual_usage c' = mk_usage (JNum 0) (JNum 0).
Proof.
  simpl. split; [eexists; split; reflexivity|]. split; reflexivity.
Qed.

(** One call [create(messages, tools=tools)] against a backend. *)
Record create_call : Type := mk_create_call {
  cc_messages : list llm_message;
  cc_tools : option (list tool);
  cc_backend : backend_t;
  cc_fresh : nat -> string
}.

(** The client after a sequence of [create] calls on it. *)
Definition run_creates (c : client) (calls : list create_call) : client :=
  fold_left (fun c0 call =>
               fst (create c0 (cc_messages call) (cc_tools call) (cc_backend call) (cc_fresh call)))
    calls c.

(** C8 (as amended). [create] never updates the usage counters: across
    any sequence of [create] calls, whatever usage the calls report or
    whether they fail, [total_usage()] and [actual_usage()] keep the value
    the client had, which for a client built by [__init__] is 0 prompt and
    0 completion tokens. *)
Theorem usage_totals_stay_at_init (key model_name : string) :
  (forall c calls, total_usage (run_creates c calls) = total_usage c
                   /\ actual_usage (run_creates c calls) = actual_usage c)
  /\ (forall calls,
        total_usage (run_creates (new_client key model_name) calls) = mk_usage (JNum 0) (JNum 0)
        /\ actual_usage (run_creates (new_client key model_name) calls)
           = mk_usage (JNum 0) (JNum 0)).
Proof.
  assert (H : forall calls c, run_creates c calls = c).
  { unfold run_creates. induction calls as [|call rest IH]; intros c; [reflexivity|].
    cbn [fold_left]. rewrite create_keeps_client. apply IH. }
  split.
  - intros c calls. rewrite H. split; reflexivity.
  - intros calls. rewrite H. split; reflexivity.
Qed.

(** ** Streaming variant *)

(** C9. When create succeeds with result [r], create_stream, which awaits
    that same call, yields exactly one chunk, [r]'s content, and nothing
    before it, so on content it agrees with the non-streaming call. *)
Theorem create_stream_single_chunk (c : client) messages tools backend fresh r :
  snd (create c messages tools backend fresh) = Ok r ->
  create_stream c messages tools backend fresh
  = (fst (create c messages tools backend fresh), ([cr_content r], None)).
Proof.
  intros H. unfold create_stream.
  destruct (create c messages tools backend fresh) as [c' r'] eqn:E.
  simpl in *. subst r'. reflexivity.
Qed.

Lemma create_stream_errors (c : client) messages tools backend fresh e :
  snd (create c messages tools backend fresh) = Err e ->
  create_stream c messages tools backend fresh
  = (fst (create c messages tools backend fresh), ([], Some e)).
Proof.
  intros H. unfold create_stream.
  destruct (create c messages tools backend fresh) as [c' r'] eqn:E.
  simpl in *. subst r'. reflexivity.
Qed.

Lemma create_stream_single_chunk_witness :
  create_stream (new_client "k" "m") [UserMessage (UCStr "q")] None
    (answer_with well_formed_sample) (fun _ => "id")
  = (new_client "k" "m", (["answer"], None)).
Proof.
  apply (create_stream_single_chunk (new_client "k" "m") [UserMessage (UCStr "q")] None
           (answer_with well_formed_sample) (fun _ => "id")
           (mk_create_result "answer" (mk_usage (JNum 5) (JNum 7)) "stop" false)).
  reflexivity.
Defined.

(** * Further properties of the adapter and its collaborators *)

(** ** Retry schedule *)

Lemma retry_loop_schedule (call : nat -> result json) :
  forall fuel a, (1 <= a)%nat ->
    let t := retry_loop call fuel a in
    (a <= attempts t)%nat
    /\ length (sleeps t) = (attempts t - a)%nat
    /\ Forall (fun d => 2 <= d <= 60) (sleeps t).
Proof.
  induction fuel as [|fuel IH]; intros a Ha; cbn [retry_loop].
  - destruct (call a) as [j|e]; cbn [attempts sleeps length]; [repeat split; auto; lia|].
    destruct (negb (is_rate_limit e)); cbn [attempts sleeps length]; [repeat split; auto; lia|].
    destruct (stop_after_attempt 5 a); cbn [attempts sleeps length]; repeat split; auto; lia.
  - destruct (call a) as [j|e]; cbn [attempts sleeps length]; [repeat split; auto; lia|].
    destruct (negb (is_rate_limit e)); cbn [attempts sleeps length]; [repeat split; auto; lia|].
    destruct (stop_after_attempt 5 a); cbn [attempts sleeps length]; [repeat split; auto; lia|].
    destruct (IH (S a)) as [H1 [H2 H3]]; [lia|].
    split; [lia|]. split; [lia|].
    constructor; [|exact H3].
    unfold retry_wait, wait_exponential.
    pose proof (Z.pow_pos_nonneg 2 (Z.of_nat a - 1)). lia.
Qed.

(** Extra. Whatever the backend answers, the retry wrapper makes between 1
    and 5 attempts, sleeps exactly once between two consecutive attempts,
    and every sleep lies between 2 and 60 time units. *)
Theorem retry_sleep_schedule (backend : nat -> http_outcome) :
  let t := _make_api_request_with_retry backend in
  (1 <= attempts t <= 5)%nat
  /\ length (sleeps t) = (attempts t - 1)%nat
  /\ Forall (fun d => 2 <= d <= 60) (sleeps t).
Proof.
  unfold _make_api_request_with_retry.
  destruct (retry_loop_schedule (fun n => _make_api_request (backend n)) 5 1) as [H1 [H2 H3]];
    [lia|].
  pose proof (retry_loop_attempts_bound (fun n => _make_api_request (backend n)) 5 1).
  split; [split; [exact H1 | apply H; lia]|]. split; assumption.
Qed.

Definition rate_limit_message (ra : option string) : string :=
  "Rate limit exceeded. Retry-After: " ++ header_get ra "60".

(** Extra. When all 5 attempts are throttled, the final [RetryError] wraps
    the rate-limit error of the 5th attempt, whose message quotes that
    response's Retry-After header (or "60" without one); the header never
    changes the sleeps, which stay 2, 4, 8, 16. *)
Theorem retry_exhaustion_reports_last_header (backend : nat -> http_outcome) ra5 body5 :
  (forall n, (1 <= n <= 5)%nat -> is_throttle (backend n) = true) ->
  backend 5%nat = HttpResponse 429 ra5 body5 ->
  _make_api_request_with_retry backend
  = mk_trace (Err (RetryError (RateLimitError (rate_limit_message ra5)))) [2; 4; 8; 16] 5.
Proof.
  intros Hthr H5. unfold _make_api_request_with_retry.
  destruct (retry_loop_exhausted (fun n => _make_api_request (backend n)) 4 1 5)
    as [msg [Hm Hrec]]; try lia.
  - intros n Hn. apply (throttled_prefix backend 1 5); [exact Hthr | lia].
  - rewrite Hrec. rewrite H5 in Hm. simpl in Hm. injection Hm as <-. reflexivity.
Qed.

Definition throttle_with (ra : string) : http_outcome := HttpResponse 429 (Some ra) None.

Lemma retry_exhaustion_reports_last_header_witness :
  _make_api_request_with_retry
    (fun n => if Nat.eqb n 5 then throttle_with "30" else throttle_with "120")
  = mk_trace (Err (RetryError (RateLimitError (rate_limit_message (Some "30"))))) [2; 4; 8; 16] 5.
Proof.
  apply (retry_exhaustion_reports_last_header _ (Some "30") None); [|reflexivity].
  intros n _. destruct (Nat.eqb n 5); reflexivity.
Defined.

(** Extra. Only a 429 is retried: a connection failure, or a non-error
    status whose body is not JSON, fails on the first attempt without any
    sleep; a response with status below 400 (or 600 and above) other than
    429 and a JSON body returns that body after one attempt. *)
Theorem first_attempt_outcomes (backend : nat -> http_outcome) :
  (backend 1%nat = ConnFailure ->
     _make_api_request_with_retry backend = mk_trace (Err ConnectionError) [] 1)
  /\ (forall status ra, backend 1%nat = HttpResponse status ra None ->
        status <> 429 -> (status < 400 \/ 600 <= status) ->
        _make_api_request_with_retry backend = mk_trace (Err JSONDecodeError) [] 1)
  /\ (forall status ra j, backend 1%nat = HttpResponse status ra (Some j) ->
        status <> 429 -> (status < 400 \/ 600 <= status) ->
        _make_api_request_with_retry backend = mk_trace (Ok j) [] 1).
Proof.
  assert (Hrs : forall status, (status < 400 \/ 600 <= status) -> raise_for_status status = Ok tt).
  { intros status Hs. unfold raise_for_status.
    destruct Hs as [Hs|Hs].
    - assert (E : (400 <=? status) = false) by (apply Z.leb_gt; lia). rewrite E. reflexivity.
    - assert (E : (status <? 600) = false) by (apply Z.ltb_ge; lia).
      rewrite E, andb_false_r. reflexivity. }
  split; [intros H; unfold _make_api_request_with_retry; cbn [retry_loop]; rewrite H; reflexivity|].
  split.
  - intros status ra H H429 Hs. unfold _make_api_request_with_retry. cbn [retry_loop].
    rewrite H. unfold _make_api_request.
    rewrite (proj2 (Z.eqb_neq status 429) H429), (Hrs status Hs). reflexivity.
  - intros status ra j H H429 Hs. unfold _make_api_request_with_retry. cbn [retry_loop].
    rewrite H. unfold _make_api_request.
    rewrite (proj2 (Z.eqb_neq status 429) H429), (Hrs status Hs). reflexivity.
Qed.

Lemma first_attempt_outcomes_witness :
  _make_api_request_with_retry (fun _ => ConnFailure) = mk_trace (Err ConnectionError) [] 1
  /\ _make_api_request_with_retry (fun _ => HttpResponse 200 None None)
     = mk_trace (Err JSONDecodeError) [] 1
  /\ _make_api_request_with_retry (fun _ => HttpResponse 304 None (Some (JObj [])))
     = mk_trace (Ok (JObj [])) [] 1.
Proof.
  destruct (first_attempt_outcomes (fun _ => ConnFailure)) as [H1 _].
  destruct (first_attempt_outcomes (fun _ => HttpResponse 200 None None)) as [_ [H2 _]].
  destruct (first_attempt_outcomes (fun _ => HttpResponse 304 None (Some (JObj [])))) as [_ [_ H3]].
  split; [apply H1; reflexivity|].
  split; [apply (H2 200 None); [reflexivity | lia | lia]|].
  apply (H3 304 None); [reflexivity | lia | lia].
Defined.

(** ** Parsed results *)

Lemma bind_ok {A B} (m : result A) (k : A -> result B) (r : B) :
  bind m k = Ok r -> exists a, m = Ok a /\ k a = Ok r.
Proof. destruct m as [a|e]; simpl; [eauto | discriminate]. Qed.

Ltac peel H :=
  repeat (let a := fresh "v" in let Ha := fresh "Hv" in
          apply bind_ok in H; destruct H as [a [Ha H]]).

Lemma parse_or_value_error_ok (fresh : nat -> string) (data : json) (r : create_result) :
  parse_or_value_error fresh data = Ok r -> parse_response fresh data = Ok r.
Proof.
  unfold parse_or_value_error. destruct (parse_response fresh data) as [a|[]]; auto; discriminate.
Qed.

Definition first_part_text (p0 : json) : string :=
  match p0 with
  | JObj pk => match lookup "text" pk with Some (JStr t) => t | _ => "" end
  | _ => ""
  end.

Lemma map_finish_reason_range (raw : json) (s : string) :
  map_finish_reason raw = Ok s -> In s ["stop"; "length"; "content_filter"].
Proof.
  intros H. destruct raw as [| | | s0 | |]; simpl in H; try discriminate H;
    injection H as <-; simpl; auto.
  unfold finish_reason_map. simpl.
  repeat (destruct (String.eqb s0 _); [simpl; tauto|]). simpl. tauto.
Qed.

(** What a successful parse read from the payload. *)
Lemma parse_ok_inv (fresh : nat -> string) (data : json) (r : create_result) :
  parse_response fresh data = Ok r ->
  exists kvs cands ckvs cokvs pv p0 parts_list tcs raw,
    data = JObj kvs
    /\ lookup "candidates" kvs = Some cands
    /\ py_getitem cands (KInt 0) = Ok (JObj ckvs)
    /\ lookup "content" ckvs = Some (JObj cokvs)
    /\ lookup "parts" cokvs = Some pv
    /\ py_getitem pv (KInt 0) = Ok p0
    /\ py_iter pv = Ok parts_list
    /\ collect_tool_calls fresh [] parts_list = Ok tcs
    /\ cr_content r = first_part_text p0
    /\ py_get (JObj ckvs) "finishReason" (JStr "STOP") = Ok raw
    /\ map_finish_reason raw = Ok (cr_finish_reason r)
    /\ cr_cached r = false.
Proof.
  unfold parse_response. intros H. peel H.
  injection H as <-. cbn [cr_content cr_finish_reason cr_cached].
  destruct data as [| | | | |kvs]; simpl in Hv; try discriminate Hv.
  destruct (lookup "candidates" kvs) as [cands|] eqn:Ec; [injection Hv as ->|discriminate Hv].
  destruct v0 as [| | | | |ckvs]; simpl in Hv1; try discriminate Hv1.
  destruct (lookup "content" ckvs) as [ct|] eqn:Eco; [injection Hv1 as ->|discriminate Hv1].
  destruct v1 as [| | | | |cokvs]; simpl in Hv2; try discriminate Hv2.
  destruct (lookup "parts" cokvs) as [pv|] eqn:Ep; [injection Hv2 as ->|discriminate Hv2].
  simpl in Hv6. rewrite Eco in Hv6. injection Hv6 as <-.
  simpl in Hv7. rewrite Ep in Hv7. injection Hv7 as <-.
  exists kvs, v, ckvs, cokvs, v2, v3, v8, v9, v10.
  split; [reflexivity|].
  repeat (split; [assumption|]).
  split.
  - destruct v4.
    + destruct v3 as [| | | | |pk]; simpl in Hv5; try discriminate Hv5.
      destruct (lookup "text" pk) as [t|] eqn:Et; [injection Hv5 as <-|discriminate Hv5].
      destruct t; simpl in Hv15; try discriminate Hv15.
      injection Hv15 as <-. simpl. rewrite Et. reflexivity.
    + injection Hv5 as <-. simpl in Hv15. injection Hv15 as <-.
      destruct v3 as [| | | | |pk]; simpl in Hv4 |- *; try reflexivity.
      destruct (lookup "text" pk); [discriminate Hv4 | reflexivity].
  - repeat (split; [assumption|]). reflexivity.
Qed.

Lemma bind_ext {A B} (m : result A) (k k' : A -> result B) :
  (forall a, k a = k' a) -> bind m k = bind m k'.
Proof. intros H. destruct m; simpl; [apply H | reflexivity]. Qed.

(** Two computations that fail alike and succeed alike. *)
Definition same_outcome {A} (m m' : result A) : Prop :=
  match m, m' with
  | Ok _, Ok _ => True
  | Err e, Err e' => e = e'
  | _, _ => False
  end.

Lemma bind_same_outcome {A B} (m m' : result A) (K : result B) :
  same_outcome m m' -> bind m (fun _ => K) = bind m' (fun _ => K).
Proof.
  destruct m, m'; simpl; intros H; try contradiction; [reflexivity | subst; reflexivity].
Qed.

Lemma collect_tool_calls_outcome (fresh fresh' : nat -> string) (parts : list json) :
  forall acc acc', same_outcome (collect_tool_calls fresh acc parts) (collect_tool_calls fresh' acc' parts).
Proof.
  induction parts as [|p rest IH]; intros acc acc'; cbn [collect_tool_calls]; [exact I|].
  destruct (py_contains "functionCall" p) as [[|]|e]; cbn [bind]; [|apply IH|reflexivity].
  destruct (py_getitem p (KStr "functionCall")) as [fc|e]; cbn [bind]; [|reflexivity].
  destruct (py_getitem fc (KStr "name")) as [n|e]; cbn [bind]; [|reflexivity].
  destruct (py_getitem fc (KStr "args")) as [a|e]; cbn [bind]; [apply IH|reflexivity].
Qed.

Lemma collect_tool_calls_app (fresh : nat -> string) (pre l : list json) :
  Forall part_ok pre ->
  forall acc, exists acc', collect_tool_calls fresh acc (pre ++ l) = collect_tool_calls fresh acc' l.
Proof.
  induction 1 as [|p rest Hp Hrest IH]; intros acc; [exists acc; reflexivity|].
  destruct Hp as [pk [-> [Hnone | [fk [name [args [Hfc [Hn Ha]]]]]]]];
    cbn [app collect_tool_calls].
  - unfold py_contains. rewrite Hnone. cbn [bind]. apply IH.
  - unfold py_contains. rewrite Hfc. cbn [bind]. unfold py_getitem. rewrite Hfc.
    cbn [bind]. rewrite Hn. cbn [bind]. rewrite Ha. cbn [bind]. apply IH.
Qed.

Lemma parse_response_loop_err (fresh : nat -> string) kvs ckvs rest cokvs pk ps e :
  lookup "candidates" kvs = Some (JArr (JObj ckvs :: rest)) ->
  lookup "content" ckvs = Some (JObj cokvs) ->
  lookup "parts" cokvs = Some (JArr (JObj pk :: ps)) ->
  collect_tool_calls fresh [] (JObj pk :: ps) = Err e ->
  parse_response fresh (JObj kvs) = Err e.
Proof.
  intros Hc Hco Hp He. unfold parse_response.
  cbn -[collect_tool_calls lookup]. rewrite Hc. cbn -[collect_tool_calls lookup].
  rewrite Hco. cbn -[collect_tool_calls lookup]. rewrite Hp. cbn -[collect_tool_calls lookup].
  destruct (lookup "text" pk) as [t|] eqn:Et; cbn -[collect_tool_calls lookup];
    rewrite ?Et; cbn -[collect_tool_calls lookup]; rewrite He; reflexivity.
Qed.

Lemma parse_bad_call (fresh : nat -> string) kvs ckvs rest cokvs pre pk post e :
  lookup "candidates" kvs = Some (JArr (JObj ckvs :: rest)) ->
  lookup "content" ckvs = Some (JObj cokvs) ->
  lookup "parts" cokvs = Some (JArr (pre ++ JObj pk :: post)) ->
  Forall part_ok pre ->
  (forall acc, collect_tool_calls fresh acc (JObj pk :: post) = Err e) ->
  parse_response fresh (JObj kvs) = Err e.
Proof.
  intros Hc Hco Hp Hpre Hbad.
  destruct (collect_tool_calls_app fresh pre (JObj pk :: post) Hpre []) as [acc' Hacc].
  destruct pre as [|p0 pre'].
  - apply (parse_response_loop_err fresh kvs ckvs rest cokvs pk post); auto.
  - inversion Hpre as [|? ? [p0k [Ep0 _]] _]; subst p0.
    apply (parse_response_loop_err fresh kvs ckvs rest cokvs p0k (pre' ++ JObj pk :: post));
      auto.
    rewrite <- app_comm_cons in Hacc. rewrite Hacc. apply Hbad.
Qed.

(** Extra. The tool calls [create] collects never reach the result: what the
    parser returns, success or error, does not depend on the uuids drawn
    for the calls. Still, the loop reads every ["functionCall"]: a part whose
    call lacks ["name"], or has a name but lacks ["args"], turns the whole
    response into the [ValueError] naming that key, after any number of
    well-formed parts before it. *)
Theorem tool_calls_never_returned :
  (forall fresh fresh' data, parse_or_value_error fresh data = parse_or_value_error fresh' data)
  /\ (forall fresh kvs ckvs rest cokvs pre pk fk post,
        lookup "candidates" kvs = Some (JArr (JObj ckvs :: rest)) ->
        lookup "content" ckvs = Some (JObj cokvs) ->
        lookup "parts" cokvs = Some (JArr (pre ++ JObj pk :: post)) ->
        Forall part_ok pre ->
        lookup "functionCall" pk = Some (JObj fk) ->
        lookup "name" fk = None ->
        parse_or_value_error fresh (JObj kvs) = Err (parse_error_msg "'name'"))
  /\ (forall fresh kvs ckvs rest cokvs pre pk fk post name,
        lookup "candidates" kvs = Some (JArr (JObj ckvs :: rest)) ->
        lookup "content" ckvs = Some (JObj cokvs) ->
        lookup "parts" cokvs = Some (JArr (pre ++ JObj pk :: post)) ->
        Forall part_ok pre ->
        lookup "functionCall" pk = Some (JObj fk) ->
        lookup "name" fk = Some name ->
        lookup "args" fk = None ->
        parse_or_value_error fresh (JObj kvs) = Err (parse_error_msg "'args'")).
Proof.
  split; [|split].
  - intros fresh fresh' data.
    assert (E : parse_response fresh data = parse_response fresh' data).
    { unfold parse_response.
      repeat (apply bind_ext; intros ?).
      apply bind_same_outcome, collect_tool_calls_outcome. }
    unfold parse_or_value_error. rewrite E. reflexivity.
  - intros fresh kvs ckvs rest cokvs pre pk fk post Hc Hco Hp Hpre Hfc Hn.
    unfold parse_or_value_error.
    rewrite (parse_bad_call fresh kvs ckvs rest cokvs pre pk post (KeyError (KStr "name")));
      auto.
    intros acc. cbn [collect_tool_calls]. unfold py_contains, py_getitem. rewrite Hfc.
    cbn [bind]. rewrite Hn. reflexivity.
  - intros fresh kvs ckvs rest cokvs pre pk fk post name Hc Hco Hp Hpre Hfc Hn Ha.
    unfold parse_or_value_error.
    rewrite (parse_bad_call fresh kvs ckvs rest cokvs pre pk post (KeyError (KStr "args")));
      auto.
    intros acc. cbn [collect_tool_calls]. unfold py_contains, py_getitem. rewrite Hfc.
    cbn [bind]. rewrite Hn, Ha. reflexivity.
Qed.

Definition two_calls_parts : list json :=
  [JObj [("text", JStr "Looking up.")];
   JObj [("functionCall", JObj [("name", JStr "retrieve_legal_documents");
                                ("args", JObj [("query", JStr "a")])])];
   JObj [("functionCall", JObj [("name", JStr "search_legal_updates");
                                ("args", JObj [("query", JStr "b")])])]].

Definition two_calls_candidate : list (string * json) :=
  [("content", JObj [("parts", JArr two_calls_parts)]);
   ("finishReason", JStr "MALFORMED_FUNCTION_CALL")].

Definition two_calls_payload : list (string * json) :=
  [("candidates", JArr [JObj two_calls_candidate])].

(** The two calls are followed by one without ["args"]. *)
Definition bad_call_parts : list json :=
  two_calls_parts ++ [JObj [("functionCall", JObj [("name", JStr "search_legal_updates")])]].

Definition bad_call_candidate : list (string * json) :=
  [("content", JObj [("parts", JArr bad_call_parts)])].

Definition bad_call_payload : list (string * json) :=
  [("candidates", JArr [JObj bad_call_candidate])].

Lemma tool_calls_never_returned_witness :
  parse_or_value_error nat_to_string (JObj bad_call_payload) = Err (parse_error_msg "'args'").
Proof.
  apply (proj2 (proj2 tool_calls_never_returned) nat_to_string bad_call_payload bad_call_candidate
           [] [("parts", JArr bad_call_parts)] two_calls_parts
           [("functionCall", JObj [("name", JStr "search_legal_updates")])]
           [("name", JStr "search_legal_updates")] [] (JStr "search_legal_updates"));
    try reflexivity.
  repeat constructor.
  - exists [("text", JStr "Looking up.")]. split; [reflexivity | left; reflexivity].
  - eexists. split; [reflexivity|]. right. do 3 eexists. split; [reflexivity|]. split; reflexivity.
  - eexists. split; [reflexivity|]. right. do 3 eexists. split; [reflexivity|]. split; reflexivity.
Defined.

(** Extra. The text of a parsed result comes from the first part of the
    first candidate only: it is that part's ["text"], or "" when the first
    part has none, whatever text later parts carry. *)
Theorem parsed_content_first_part (fresh : nat -> string) (kvs ckvs cokvs : list (string * json))
    (rest : list json) (p0 : json) (ps : list json) (r : create_result) :
  lookup "candidates" kvs = Some (JArr (JObj ckvs :: rest)) ->
  lookup "content" ckvs = Some (JObj cokvs) ->
  lookup "parts" cokvs = Some (JArr (p0 :: ps)) ->
  parse_or_value_error fresh (JObj kvs) = Ok r ->
  cr_content r = first_part_text p0.
Proof.
  intros Hc Hco Hp H. apply parse_or_value_error_ok, parse_ok_inv in H.
  destruct H as (kvs' & cands & ckvs' & cokvs' & pv & p0' & parts_list & tcs & raw &
                 Ed & Ec & Eg & Eco & Ep & E0 & _ & _ & Ect & _).
  injection Ed as <-. rewrite Hc in Ec. injection Ec as <-.
  simpl in Eg. injection Eg as <-. rewrite Hco in Eco. injection Eco as <-.
  rewrite Hp in Ep. injection Ep as <-. simpl in E0. injection E0 as <-.
  exact Ect.
Qed.

Definition text_second_parts : list json :=
  [JObj [("functionCall", JObj [("name", JStr "retrieve_legal_documents");
                                ("args", JObj [])])];
   JObj [("text", JStr "ignored")]].

Definition text_second_candidate : list (string * json) :=
  [("content", JObj [("parts", JArr text_second_parts)])].

Definition text_second_payload : list (string * json) :=
  [("candidates", JArr [JObj text_second_candidate])].

Lemma parsed_content_first_part_witness :
  exists r, parse_or_value_error nat_to_string (JObj text_second_payload) = Ok r
  /\ cr_content r = first_part_text (hd JNull text_second_parts)
  /\ first_part_text (hd JNull text_second_parts) = "".
Proof.
  eexists. split; [reflexivity|]. split; [|reflexivity].
  apply (parsed_content_first_part nat_to_string text_second_payload text_second_candidate
           [("parts", JArr text_second_parts)] [] (hd JNull text_second_parts) (tl text_second_parts));
    reflexivity.
Defined.

(** Extra. A parsed payload without ["usageMetadata"] reports zero prompt
    and zero completion tokens. *)
Theorem parsed_usage_defaults_to_zero (fresh : nat -> string) (kvs : list (string * json))
    (r : create_result) :
  lookup "usageMetadata" kvs = None ->
  parse_or_value_error fresh (JObj kvs) = Ok r ->
  cr_usage r = mk_usage (JNum 0) (JNum 0).
Proof.
  intros Hu H. apply parse_or_value_error_ok in H. unfold parse_response in H. peel H.
  injection H as <-. cbn [cr_usage].
  simpl in Hv12. rewrite Hu in Hv12. injection Hv12 as <-.
  simpl in Hv13, Hv14. injection Hv13 as <-. injection Hv14 as <-. reflexivity.
Qed.

Lemma parsed_usage_defaults_to_zero_witness :
  exists r, parse_or_value_error nat_to_string (JObj two_calls_payload) = Ok r
  /\ cr_usage r = mk_usage (JNum 0) (JNum 0).
Proof.
  eexists. split; [reflexivity|].
  apply (parsed_usage_defaults_to_zero nat_to_string two_calls_payload); reflexivity.
Defined.

(** Extra. A success body that is valid JSON but not an object (an array,
    a string, a number, a boolean or null) makes create raise [TypeError],
    which is neither the parser's [ValueError] nor a request error. *)
Theorem non_object_payload_type_error (c : client) messages tools (backend : backend_t)
    (fresh : nat -> string) (ra : option string) (data : json) :
  backend (request_url c) (build_payload messages tools) 1%nat = HttpResponse 200 ra (Some data) ->
  (forall kvs, data <> JObj kvs) ->
  snd (create c messages tools backend fresh) = Err TypeError
  /\ kind_of TypeError = OtherError.
Proof.
  intros Hb Hd. split; [|reflexivity].
  unfold create, _make_api_request_with_retry. cbn [snd retry_loop]. rewrite Hb.
  destruct data as [| | | | |kvs]; try reflexivity.
  exfalso. exact (Hd kvs eq_refl).
Qed.

Lemma non_object_payload_type_error_witness :
  snd (create (new_client "k" "m") [] None (answer_with (JArr [])) (fun _ => "id")) = Err TypeError
  /\ kind_of TypeError = OtherError.
Proof.
  apply (non_object_payload_type_error _ _ _ _ _ None (JArr [])); [reflexivity|].
  intros kvs. discriminate.
Defined.

(** ** Schema cleaning and tool declarations *)

Lemma clean_schema_obj_cons (k : string) (v : json) (rest : list (string * json)) :
  clean_schema (JObj ((k, v) :: rest))
  = match clean_schema (JObj rest) with
    | JObj l => JObj (if is_banned_key k then l else (k, clean_schema v) :: l)
    | j => j
    end.
Proof. reflexivity. Qed.

(** Extra. In a cleaned dict, looking up "title", "additionalProperties"
    or "strict" finds nothing, and looking up any other key finds the
    cleaned value of the first binding of that key in the input. *)
Theorem clean_schema_lookup (kvs : list (string * json)) (k : string) :
  payload_field k (clean_schema (JObj kvs))
  = if is_banned_key k then None else option_map clean_schema (lookup k kvs).
Proof.
  induction kvs as [|[k' v] rest IH].
  - simpl. destruct (is_banned_key k); reflexivity.
  - rewrite clean_schema_obj_cons.
    destruct (clean_schema (JObj rest)) as [| | | | |l] eqn:E; try discriminate E.
    simpl in IH. cbn [lookup].
    destruct (String.eqb k k') eqn:Ek.
    + apply String.eqb_eq in Ek. subst k'.
      destruct (is_banned_key k) eqn:Eb; simpl; [exact IH|].
      rewrite String.eqb_refl. reflexivity.
    + destruct (is_banned_key k') eqn:Eb'; simpl; [exact IH|].
      rewrite Ek. exact IH.
Qed.






(** ** Evidence items and the retrieval response *)

(** The value [EvidenceItem] receives as [content] and as [document_name]
    for a chunk given as a dict. *)
Definition chunk_content (kvs : list (string * json)) : json :=
  match lookup "content_with_weight" kvs with
  | Some x => x
  | None => match lookup "content" kvs with Some y => y | None => JStr "" end
  end.

Definition chunk_document_name (keyword_fallback : bool) (kvs : list (string * json)) : json :=
  match lookup "doc_name" kvs with
  | Some x => x
  | None =>
      if keyword_fallback
      then match lookup "document_keyword" kvs with Some y => y | None => JStr "Unknown Document" end
      else JStr "Unknown Document"
  end.

Lemma make_item_ok (kf : bool) (kvs : list (string * json)) (it : evidence_item) :
  make_item kf (JObj kvs) = Ok it ->
  validate_str (chunk_content kvs) = Ok (ei_content it)
  /\ validate_str (chunk_document_name kf kvs) = Ok (ei_document_name it)
  /\ ei_original_metadata it = kvs.
Proof.
  intros H. unfold make_item in H. peel H.
  destruct kf; cbn in Hv, Hv0, Hv1, Hv2, Hv9;
    injection Hv as <-; injection Hv0 as <-; injection Hv1 as <-; injection Hv2 as <-;
    injection Hv9 as <-; injection H as <-;
    cbn [ei_content ei_document_name ei_original_metadata];
    unfold chunk_content, chunk_document_name; repeat split; assumption.
Qed.

Lemma make_items_ok (kf : bool) (docs : list json) (items : list evidence_item) :
  make_items kf docs = Ok items <-> Forall2 (fun d i => make_item kf d = Ok i) docs items.
Proof.
  revert items. induction docs as [|d rest IH]; intros items; simpl.
  - split; intros H.
    + injection H as <-. constructor.
    + inversion H. reflexivity.
  - split; intros H.
    + destruct (make_item kf d) as [i|e] eqn:Ed; [|discriminate H].
      simpl in H. destruct (make_items kf rest) as [is|e] eqn:Er; [|discriminate H].
      simpl in H. injection H as <-. constructor; [exact Ed|]. apply IH. reflexivity.
    + inversion H as [|d' i rest' is' Hd Hr]; subst.
      rewrite Hd. simpl. apply IH in Hr. rewrite Hr. reflexivity.
Qed.

Lemma make_items_err (kf : bool) (docs : list json) (e : py_exc) :
  make_items kf docs = Err e -> exists d, In d docs /\ make_item kf d = Err e.
Proof.
  induction docs as [|d rest IH]; simpl; [discriminate|].
  destruct (make_item kf d) as [i|e'] eqn:Ed; simpl.
  - destruct (make_items kf rest) as [is|e'] eqn:Er; simpl; [discriminate|].
    intros H. injection H as ->. destruct IH as [d' [Hin Hd']]; [reflexivity|].
    exists d'. split; [right; exact Hin | exact Hd'].
  - intros H. injection H as ->. exists d. split; [left; reflexivity | exact Ed].
Qed.

(** Extra. How a returned chunk given as a dict becomes an evidence item:
    the content is ['content_with_weight'] when present, and [""] when neither
    it nor ['content'] is present; without ['doc_name'] the document name is
    ['document_keyword'] in the ['chunks'] format only, and "Unknown Document"
    otherwise; the item keeps the whole chunk as its metadata. *)
Theorem make_item_fallbacks (kf : bool) (kvs : list (string * json)) (it : evidence_item)
  (H : make_item kf (JObj kvs) = Ok it) :
  (forall s, lookup "content_with_weight" kvs = Some (JStr s) -> ei_content it = s)
  /\ (lookup "content_with_weight" kvs = None -> lookup "content" kvs = None -> ei_content it = "")
  /\ (forall s, lookup "doc_name" kvs = None -> kf = true ->
        lookup "document_keyword" kvs = Some (JStr s) -> ei_document_name it = s)
  /\ (lookup "doc_name" kvs = None -> kf = false -> ei_document_name it = "Unknown Document")
  /\ ei_original_metadata it = kvs.
Proof.
  destruct (make_item_ok kf kvs it H) as [Hc [Hd Hm]].
  unfold chunk_content, chunk_document_name in *.
  split; [|split; [|split; [|split]]].
  - intros s Hs. rewrite Hs in Hc. injection Hc as ->. reflexivity.
  - intros H1 H2. rewrite H1, H2 in Hc. injection Hc as ->. reflexivity.
  - intros s H1 -> H2. rewrite H1, H2 in Hd. injection Hd as ->. reflexivity.
  - intros H1 ->. rewrite H1 in Hd. injection Hd as ->. reflexivity.
  - exact Hm.
Qed.

Definition keyword_only_chunk : list (string * json) :=
  [("content", JStr "Dieu 5"); ("document_keyword", JStr "Luat Dat dai")].

Lemma make_item_fallbacks_witness :
  make_item false (JObj keyword_only_chunk)
    = Ok (mk_evidence_item "Dieu 5" "Unknown Document" None None keyword_only_chunk)
  /\ ei_document_name (mk_evidence_item "Dieu 5" "Unknown Document" None None keyword_only_chunk)
     = "Unknown Document".
Proof.
  split; [reflexivity|].
  apply (proj1 (proj2 (proj2 (proj2
           (make_item_fallbacks false keyword_only_chunk
              (mk_evidence_item "Dieu 5" "Unknown Document" None None keyword_only_chunk)
              eq_refl))))); reflexivity.
Defined.

(** Extra. A chunk that is not a dict fails with [AttributeError] (it has no
    [get]), and a chunk whose ['content_with_weight'] is not a string fails
    validation even when its ['content'] is a valid string. *)
Theorem make_item_rejects (kf : bool) :
  (forall d, is_dict d = false -> make_item kf d = Err AttributeError)
  /\ (forall kvs v, lookup "content_with_weight" kvs = Some v ->
        validate_str v = Err ValidationError -> make_item kf (JObj kvs) = Err ValidationError).
Proof.
  split.
  - intros d Hd. destruct d; try discriminate Hd; reflexivity.
  - intros kvs v Hl Hv. unfold make_item. cbn [py_get bind]. rewrite Hl.
    destruct kf; cbn [bind]; rewrite Hv; reflexivity.
Qed.

Lemma make_item_rejects_witness :
  lookup "content_with_weight" [("content_with_weight", JNum 3); ("content", JStr "Dieu 1")]
    = Some (JNum 3)
  /\ validate_str (JNum 3) = Err ValidationError
  /\ make_item true (JObj [("content_with_weight", JNum 3); ("content", JStr "Dieu 1")])
     = Err ValidationError.
Proof.
  split; [reflexivity|]. split; [reflexivity|].
  apply (proj2 (make_item_rejects true)
           [("content_with_weight", JNum 3); ("content", JStr "Dieu 1")] (JNum 3));
    reflexivity.
Defined.

(** Extra. In the ['chunks'] format the mapping is all or nothing: either
    every chunk becomes an item, in order, and the count is the number of
    chunks, or some chunk fails to map and the pack is empty. A ['code'] that
    compares equal to 0 in Python (also [False]) counts as success. *)
Theorem search_chunks_all_or_nothing (query : string) (status : Z) (ra : option string)
  (kvs dkvs : list (string * json)) (code : json) (docs : list json)
  (Hs : raise_for_status status = Ok tt)
  (Hcode : lookup "code" kvs = Some code) (Hz : py_eq_zero code = true)
  (Hdata : lookup "data" kvs = Some (JObj dkvs))
  (Hchunks : lookup "chunks" dkvs = Some (JArr docs)) :
  let p := search query (HttpResponse status ra (Some (JObj kvs))) in
  (Forall2 (fun d i => make_item true d = Ok i) docs (ep_items p)
   /\ ep_total_items p = Z.of_nat (length docs))
  \/ (exists d e, In d docs /\ make_item true d = Err e
                  /\ ep_items p = [] /\ ep_total_items p = 0).
Proof.
  assert (E0 : search_try (HttpResponse status ra (Some (JObj kvs))) = make_items true docs).
  { unfold search_try, items_of_data. rewrite Hs. simpl. rewrite Hcode, Hz. simpl.
    rewrite Hdata. simpl. rewrite Hchunks. reflexivity. }
  cbv zeta. unfold search. rewrite E0.
  destruct (make_items true docs) as [items|e] eqn:E.
  - left. apply make_items_ok in E. cbn [ep_items ep_total_items].
    split; [exact E|]. rewrite (Forall2_length E). reflexivity.
  - right. destruct (make_items_err true docs e E) as [d [Hin Hd]].
    exists d, e. repeat split; assumption.
Qed.

Definition chunks_response (docs : list json) : json :=
  JObj [("code", JBool false); ("data", JObj [("chunks", JArr docs)])].

Lemma search_chunks_all_or_nothing_witness :
  ep_items (search "q" (HttpResponse 200 None
              (Some (chunks_response [JObj [("content", JStr "Dieu 1")]; JStr "bad"])))) = [].
Proof.
  destruct (search_chunks_all_or_nothing "q" 200 None
              [("code", JBool false); ("data", JObj [("chunks", JArr [JObj [("content", JStr "Dieu 1")]; JStr "bad"])])]
              [("chunks", JArr [JObj [("content", JStr "Dieu 1")]; JStr "bad"])]
              (JBool false) [JObj [("content", JStr "Dieu 1")]; JStr "bad"]
              eq_refl eq_refl eq_refl eq_refl eq_refl)
    as [[H _] | [d [e [_ [_ [H _]]]]]].
  - vm_compute in H. inversion H.
  - exact H.
Defined.

(** Extra. A successful retrieval response still gives an empty pack when
    its ['code'] is missing or not 0, when it has no ['data'], or when
    ['data'] is neither a list nor a dict with ['chunks'] or ['docs']. *)
Theorem search_empty_without_known_data (query : string) (status : Z) (ra : option string)
  (kvs : list (string * json)) (Hs : raise_for_status status = Ok tt) :
  (py_eq_zero (match lookup "code" kvs with Some c => c | None => JNull end) = false
   \/ lookup "data" kvs = None ->
   search query (HttpResponse status ra (Some (JObj kvs))) = empty_pack query)
  /\ (forall v, lookup "data" kvs = Some v -> is_list v = false ->
        (forall dkvs, v = JObj dkvs -> lookup "chunks" dkvs = None /\ lookup "docs" dkvs = None) ->
        search query (HttpResponse status ra (Some (JObj kvs))) = empty_pack query).
Proof.
  split.
  - intros Hc. unfold search, search_try, items_of_data. rewrite Hs. simpl.
    destruct (py_eq_zero (match lookup "code" kvs with Some c => c | None => JNull end)) eqn:Ez.
    + destruct Hc as [Hc | Hd]; [discriminate Hc|]. simpl. rewrite Hd. reflexivity.
    + reflexivity.
  - intros v Hv Hl Hk. unfold search, search_try, items_of_data. rewrite Hs. simpl.
    destruct (py_eq_zero (match lookup "code" kvs with Some c => c | None => JNull end));
      [|reflexivity].
    simpl. rewrite Hv. simpl. rewrite Hl.
    destruct v as [|b|z|s|l|dk]; try discriminate Hl; try reflexivity.
    destruct (Hk dk eq_refl) as [H1 H2]. simpl. rewrite H1. simpl. rewrite H2. reflexivity.
Qed.

Lemma search_empty_without_known_data_witness :
  search "q" (HttpResponse 200 None
                (Some (JObj [("code", JNum 0); ("data", JObj [("items", JArr [JStr "x"])])])))
  = empty_pack "q".
Proof.
  apply (proj2 (search_empty_without_known_data "q" 200 None
                  [("code", JNum 0); ("data", JObj [("items", JArr [JStr "x"])])] eq_refl)
           (JObj [("items", JArr [JStr "x"])]) eq_refl eq_refl).
  intros dkvs Hd. injection Hd as <-. split; reflexivity.
Defined.

(** ** Dataset selection *)

Fixpoint count_commas (s : string) : nat :=
  match s with
  | EmptyString => 0
  | String c rest => (if Ascii.eqb c "," then 1 else 0) + count_commas rest
  end.

Lemma split_comma_length (s : string) : length (split_comma s) = S (count_commas s).
Proof.
  induction s as [|c rest IH]; [reflexivity|].
  simpl. destruct (split_comma rest) as [|cur others]; [discriminate IH|].
  simpl in IH. destruct (Ascii.eqb c ","); simpl; lia.
Qed.

Lemma str_app_empty_r (s : string) : (s ++ "")%string = s.
Proof. induction s as [|c s IH]; simpl; [reflexivity | rewrite IH; reflexivity]. Qed.

Lemma split_comma_nonempty (s : string) : exists cur others, split_comma s = cur :: others.
Proof.
  pose proof (split_comma_length s) as H.
  destruct (split_comma s) as [|cur others]; [discriminate H | exists cur, others; reflexivity].
Qed.

(** A field without commas glues onto the first field of what follows. *)
Lemma split_comma_field (f s cur : string) (others : list string) :
  count_commas f = 0%nat -> split_comma s = cur :: others ->
  split_comma (f ++ s) = (f ++ cur)%string :: others.
Proof.
  intros Hf Hs. induction f as [|c f IH]; [exact Hs|].
  simpl in Hf |- *. destruct (Ascii.eqb c ",") eqn:Ec; [discriminate Hf|].
  rewrite IH by exact Hf. reflexivity.
Qed.

Lemma split_comma_join (fs : list string) :
  fs <> [] -> Forall (fun f => count_commas f = 0%nat) fs -> split_comma (join_sep "," fs) = fs.
Proof.
  intros Hne Hf. induction Hf as [|f rest Hf0 Hrest IH]; [contradiction Hne; reflexivity|].
  destruct rest as [|g rest'].
  - cbn [join_sep]. rewrite <- (str_app_empty_r f) at 1.
    rewrite (split_comma_field f "" "" [] Hf0 eq_refl). rewrite str_app_empty_r. reflexivity.
  - change (join_sep "," (f :: g :: rest')) with (f ++ String "," (join_sep "," (g :: rest')))%string.
    rewrite (split_comma_field f _ "" (g :: rest') Hf0).
    + rewrite str_app_empty_r. reflexivity.
    + cbn [split_comma]. rewrite IH by discriminate. reflexivity.
Qed.

Lemma split_comma_trailing (s : string) :
  split_comma (s ++ ",") = split_comma s ++ [""].
Proof.
  induction s as [|c s IH]; [reflexivity|].
  cbn [String.append split_comma]. rewrite IH.
  destruct (split_comma_nonempty s) as [cur [others E]]. rewrite E.
  destruct (Ascii.eqb c ","); reflexivity.
Qed.

(** Extra. An empty [knowledge_ids] list counts as no argument; a non-empty
    one is used as given; otherwise a non-empty [RAGFLOW_KNOWLEDGE_ID] gives
    its comma-separated fields, each stripped, in order: joining fields
    without commas and resolving gives the stripped fields back, a trailing
    comma adds one empty id to whatever the variable gave without it, and
    there is always one id more than the variable has commas; an empty
    variable gives no id. *)
Theorem knowledge_ids_resolution :
  (forall env, resolve_knowledge_ids (Some []) env = resolve_knowledge_ids None env)
  /\ (forall ids env, ids <> [] -> resolve_knowledge_ids (Some ids) env = ids)
  /\ (forall fs, fs <> [] -> Forall (fun f => count_commas f = 0%nat) fs -> join_sep "," fs <> "" ->
        resolve_knowledge_ids None (Some (join_sep "," fs)) = map strip fs)
  /\ (forall e, e <> "" ->
        resolve_knowledge_ids None (Some (e ++ ",")%string) = resolve_knowledge_ids None (Some e) ++ [""])
  /\ (forall e, e <> "" -> length (resolve_knowledge_ids None (Some e)) = S (count_commas e))
  /\ resolve_knowledge_ids None (Some "") = [].
Proof.
  split; [reflexivity|].
  split; [intros [|i ids] env H; [contradiction H; reflexivity | reflexivity]|].
  split.
  { intros fs Hne Hf Hj. simpl. destruct (String.eqb_spec (join_sep "," fs) "") as [E|_];
      [contradiction|]. rewrite split_comma_join by assumption. reflexivity. }
  split.
  { intros e He. simpl.
    destruct (String.eqb_spec e "") as [E|_]; [contradiction|].
    destruct (String.eqb_spec (e ++ ",")%string "") as [E|_];
      [destruct e; discriminate E|].
    rewrite split_comma_trailing, map_app. reflexivity. }
  split; [|reflexivity].
  intros e He. simpl. destruct (String.eqb_spec e "") as [E|_]; [contradiction|].
  rewrite length_map. apply split_comma_length.
Qed.

Lemma knowledge_ids_resolution_witness :
  resolve_knowledge_ids None (Some (join_sep "," ["kb1"; " kb2 "])) = ["kb1"; "kb2"]
  /\ resolve_knowledge_ids None (Some ("kb1, kb2" ++ ",")%string) = ["kb1"; "kb2"; ""]
  /\ length (resolve_knowledge_ids None (Some "kb1, kb2,")) = 3%nat.
Proof.
  destruct knowledge_ids_resolution as [_ [_ [H3 [H4 [H5 _]]]]].
  split; [|split].
  - rewrite H3; [reflexivity | discriminate | repeat constructor | discriminate].
  - rewrite H4 by discriminate. vm_compute. reflexivity.
  - apply H5. discriminate.
Defined.

(** ** Web search *)

Lemma str_app_assoc (a b c : string) : ((a ++ b) ++ c)%string = (a ++ (b ++ c))%string.
Proof. induction a as [|x a IH]; simpl; [reflexivity | rewrite IH; reflexivity]. Qed.

Lemma prefix_app (p s : string) : String.prefix p (p ++ s) = true.
Proof.
  induction p as [|c p IH]; simpl; [destruct s; reflexivity|].
  destruct (Ascii.ascii_dec c c) as [_|n]; [exact IH | contradiction n; reflexivity].
Qed.

Lemma str_contains_app (needle a b : string) : str_contains needle (a ++ needle ++ b) = true.
Proof.
  induction a as [|c a IH]; simpl.
  - pose proof (prefix_app needle b) as P.
    destruct (needle ++ b)%string; cbn [str_contains]; rewrite P; reflexivity.
  - rewrite IH, Bool.orb_true_r. reflexivity.
Qed.

Lemma format_results_err (rs : list (list (string * string))) (r : list (string * string)) (e : py_exc) :
  In r rs -> format_result r = Err e -> exists e', format_results rs = Err e'.
Proof.
  induction rs as [|r0 rest IH]; simpl; [contradiction|].
  intros [-> | Hin] Hr.
  - rewrite Hr. exists e. reflexivity.
  - destruct (format_result r0) as [b|e0]; simpl; [|exists e0; reflexivity].
    destruct (IH Hin Hr) as [e' He']. rewrite He'. exists e'. reflexivity.
Qed.

Lemma format_result_missing (r : list (string * string)) :
  lookup_str "title" r = None \/ lookup_str "href" r = None \/ lookup_str "body" r = None ->
  exists e, format_result r = Err e.
Proof.
  unfold format_result, result_field.
  intros [H | [H | H]]; rewrite ?H;
    destruct (lookup_str "title" r); simpl; eauto;
    rewrite ?H; destruct (lookup_str "href" r); simpl; eauto;
    rewrite ?H; destruct (lookup_str "body" r); simpl; eauto; discriminate.
Qed.

Lemma format_results_ok (rs : list (list (string * string))) :
  (forall r, In r rs -> lookup_str "title" r <> None /\ lookup_str "href" r <> None
                        /\ lookup_str "body" r <> None) ->
  exists blocks, format_results rs = Ok blocks /\ length blocks = length rs
    /\ forall r t, hd_error rs = Some r -> lookup_str "title" r = Some t ->
         exists rest, hd_error blocks = Some ("Title: " ++ t ++ rest)%string.
Proof.
  induction rs as [|r rest IH]; intros Hall; [exists []; repeat split; discriminate|].
  destruct (Hall r (or_introl eq_refl)) as [Ht [Hh Hb]].
  destruct IH as [blocks [Hbl [Hlen _]]]; [intros r' Hin; apply Hall; right; exact Hin|].
  simpl. unfold format_result, result_field.
  destruct (lookup_str "title" r) as [t|] eqn:Et; [|contradiction].
  destruct (lookup_str "href" r) as [h|]; [|contradiction].
  destruct (lookup_str "body" r) as [b|]; [|contradiction].
  simpl. rewrite Hbl. simpl.
  eexists. split; [reflexivity|]. split; [simpl; rewrite Hlen; reflexivity|].
  intros r' t' Hr' Ht'. injection Hr' as <-. rewrite Et in Ht'. injection Ht' as <-.
  eexists. reflexivity.
Qed.

Lemma join_sep_head (sep p : string) (ps : list string) :
  exists tail, join_sep sep (p :: ps) = (p ++ tail)%string.
Proof.
  destruct ps as [|p' ps]; simpl.
  - exists EmptyString. induction p as [|c p IH]; simpl; [reflexivity | rewrite <- IH; reflexivity].
  - eexists. reflexivity.
Qed.

(** Extra. The web search never raises: the query always reaches the search
    keywords; a failing search gives the error message with the exception's
    text, no result gives the not-found message; one result missing
    ['title'], ['href'] or ['body'] turns the whole answer into the error
    message, discarding the well-formed results; when every result is well
    formed the answer starts with the first result's title. *)
Theorem web_search_outcomes (query : string) (ddgs : string -> ddgs_outcome) :
  str_contains query (ddgs_keywords query) = true
  /\ (forall msg, ddgs (ddgs_keywords query) = DdgsFailure msg ->
        search_legal_updates query ddgs = (web_error_prefix ++ msg)%string)
  /\ (ddgs (ddgs_keywords query) = DdgsResults [] -> search_legal_updates query ddgs = web_not_found)
  /\ (forall rs r, ddgs (ddgs_keywords query) = DdgsResults rs -> In r rs ->
        lookup_str "title" r = None \/ lookup_str "href" r = None \/ lookup_str "body" r = None ->
        String.prefix web_error_prefix (search_legal_updates query ddgs) = true)
  /\ (forall rs r t, ddgs (ddgs_keywords query) = DdgsResults (r :: rs) ->
        (forall r', In r' (r :: rs) -> lookup_str "title" r' <> None
                    /\ lookup_str "href" r' <> None /\ lookup_str "body" r' <> None) ->
        lookup_str "title" r = Some t ->
        exists rest, search_legal_updates query ddgs = ("Title: " ++ t ++ rest)%string).
Proof.
  split; [apply str_contains_app|].
  unfold search_legal_updates.
  split; [intros msg H; rewrite H; reflexivity|].
  split; [intros H; rewrite H; reflexivity|].
  split.
  - intros rs r H Hin Hmiss. rewrite H.
    destruct (format_result_missing r Hmiss) as [e He].
    destruct (format_results_err rs r e Hin He) as [e' He'].
    destruct rs as [|r0 rest]; [contradiction|]. rewrite He'. apply prefix_app.
  - intros rs r t H Hall Ht. rewrite H.
    destruct (format_results_ok (r :: rs) Hall) as [blocks [Hbl [_ Hhd]]].
    rewrite Hbl. destruct (Hhd r t eq_refl Ht) as [rest Hb].
    destruct blocks as [|b bs]; [discriminate Hb|]. injection Hb as ->.
    match goal with
    | |- context [join_sep ?sep (?p :: bs)] => destruct (join_sep_head sep p bs) as [tail ->]
    end.
    exists (rest ++ tail)%string. simpl. rewrite str_app_assoc. reflexivity.
Qed.

Definition ddgs_sample (kw : string) : ddgs_outcome :=
  DdgsResults [[("title", "Luat Dat dai 2024"); ("href", "https://x"); ("body", "con hieu luc")];
               [("title", "Nghi dinh"); ("href", "https://y")]].

Lemma web_search_outcomes_witness :
  String.prefix web_error_prefix (search_legal_updates "Luat Dat dai" ddgs_sample) = true.
Proof.
  apply (proj1 (proj2 (proj2 (proj2 (web_search_outcomes "Luat Dat dai" ddgs_sample))))
           [[("title", "Luat Dat dai 2024"); ("href", "https://x"); ("body", "con hieu luc")];
            [("title", "Nghi dinh"); ("href", "https://y")]]
           [("title", "Nghi dinh"); ("href", "https://y")]).
  - reflexivity.
  - right. left. reflexivity.
  - right. right. reflexivity.
Defined.

(** ** Model client selection *)

(** Extra. A valid OpenAI key always wins, even when a Gemini key is set; an
    OpenAI key starting with the placeholder "sk-..." counts as absent; when
    the OpenAI key is unset, empty or such a placeholder, a non-empty Gemini
    key selects the native Gemini client, and with no Gemini key either (unset
    or empty) the selection raises [ValueError]. *)
Theorem model_client_selection :
  (forall k g b, String.prefix "sk-..." k = true ->
     get_model_client (Some k) g b = get_model_client None g b)
  /\ (forall k g b, k <> "" -> String.prefix "sk-..." k = false ->
        get_model_client (Some k) g b = Ok (UseOpenAI k b))
  /\ (forall o g b,
        match o with Some k => String.eqb k "" || String.prefix "sk-..." k | None => true end = true ->
        g <> "" -> get_model_client o (Some g) b = Ok (UseNativeGemini g))
  /\ (forall o g b,
        match o with Some k => String.eqb k "" || String.prefix "sk-..." k | None => true end = true ->
        env_truthy g = false ->
        get_model_client o g b
        = Err (ValueError "No valid API Key found (OPENAI_API_KEY or GEMINI_API_KEY)")).
Proof.
  assert (Hnone : forall o g b,
            match o with Some k => String.eqb k "" || String.prefix "sk-..." k | None => true end = true ->
            get_model_client o g b = get_model_client None g b).
  { intros [k|] g b Hu; [|reflexivity].
    apply Bool.orb_true_iff in Hu. destruct Hu as [Hk | Hp].
    - apply String.eqb_eq in Hk. subst k. reflexivity.
    - unfold get_model_client. rewrite Hp. reflexivity. }
  split; [|split; [|split]].
  - intros k g b Hp. apply Hnone. rewrite Hp, Bool.orb_true_r. reflexivity.
  - intros k g b Hk Hp. unfold get_model_client. rewrite Hp.
    destruct (String.eqb_spec k "sk-...") as [E|_]; [subst k; discriminate Hp|].
    simpl. destruct (String.eqb_spec k "") as [E|_]; [contradiction|].
    reflexivity.
  - intros o g b Hu Hg. rewrite (Hnone o _ b Hu). unfold get_model_client. simpl.
    destruct (String.eqb_spec g "") as [E|_]; [contradiction | reflexivity].
  - intros o g b Hu Hg. rewrite (Hnone o g b Hu). unfold get_model_client. simpl.
    rewrite Hg. reflexivity.
Qed.

Lemma model_client_selection_witness :
  get_model_client (Some "sk-...your-key") (Some "AIza-test") None = Ok (UseNativeGemini "AIza-test")
  /\ get_model_client (Some "sk-proj-1") (Some "AIza-test") None = Ok (UseOpenAI "sk-proj-1" None)
  /\ get_model_client (Some "") (Some "AIza-test") None = Ok (UseNativeGemini "AIza-test")
  /\ get_model_client (Some "") (Some "") None
     = Err (ValueError "No valid API Key found (OPENAI_API_KEY or GEMINI_API_KEY)").
Proof.
  destruct model_client_selection as [H1 [H2 [H3 H4]]]. split; [|split; [|split]].
  - rewrite (H1 "sk-...your-key" (Some "AIza-test") None eq_refl).
    apply H3; [reflexivity | discriminate].
  - apply H2; [discriminate | reflexivity].
  - apply H3; [reflexivity | discriminate].
  - apply H4; reflexivity.
Defined.
